(** * acapy_plugin_toolbox.util: timestamps, the role gate and the
      message-type factory, embedded from [src/acapy_plugin_toolbox/util.py].

    Python values are embedded as follows: [str] as [string], [dict] as
    stdpp's [gmap string _], a raised exception as the left injection of a
    sum, a coroutine as a function of the host's state that also keeps a
    trace of the calls the gate awaits. *)

From Stdlib Require Import String Ascii Arith NArith Lia.
From stdpp Require Import base option list strings gmap.

Local Open Scope string_scope.
Local Open Scope N_scope.

(** ** Python exceptions that the module can raise or let through *)

Inductive exn : Type :=
| ValueError (msg : string)
| TypeError (msg : string)
| OverflowError (msg : string).

Abbreviation result A := (exn + A)%type.

Definition bind_result {A B} (r : result A) (k : A -> result B) : result B :=
  match r with
  | inl e => inl e
  | inr a => k a
  end.

(** ** [str] operations used by the module *)

(** [old.startswith-at-this-position] test: is [p] a prefix of [s]? *)
Fixpoint starts_with (p s : string) : bool :=
  match p, s with
  | EmptyString, _ => true
  | String a p', String b s' => if Ascii.eqb a b then starts_with p' s' else false
  | String _ _, EmptyString => false
  end.

(** [replace_from old new count skip s]: the scan of [str.replace] over
    [s], left to right, occurrences not overlapping.  [skip] characters
    still belong to the occurrence matched last and are dropped; [count]
    is the number of replacements left ([None]: no limit). *)
Fixpoint replace_from (old new : string) (count : option nat) (skip : nat)
    (s : string) : string :=
  match s with
  | EmptyString => EmptyString
  | String c s' =>
      match skip with
      | S k => replace_from old new count k s'
      | O =>
          match count with
          | Some O => s
          | _ =>
              if starts_with old s
              then new ++ replace_from old new (pred <$> count)
                            (String.length old - 1)%nat s'
              else String c (replace_from old new count O s')
          end
      end
  end.

(** [s.replace(old, new)] and [s.replace(old, new, count)], for a
    non-empty [old] (both call sites pass a literal). *)
Definition str_replace (old new : string) (count : option nat) (s : string) : string :=
  replace_from old new count O s.

(** Does [sub] occur in [s]?  ([sub in s] of Python.) *)
Fixpoint contains (sub s : string) : bool :=
  starts_with sub s ||
  match s with
  | EmptyString => false
  | String _ s' => contains sub s'
  end.

(** ** [datetime] *)

(** [tzinfo]: absent on a naive value, otherwise a fixed offset from UTC,
    here its sign and its size in minutes ([timezone.utc] is [utc]). *)
Record timezone := { tz_negative : bool; tz_minutes : N }.

Definition utc : timezone := {| tz_negative := false; tz_minutes := 0 |}.

Record datetime := {
  year : N; month : N; day : N;
  hour : N; minute : N; second : N; microsecond : N;
  tzinfo : option timezone
}.

Definition is_leap (y : N) : bool :=
  (y mod 4 =? 0) && (negb (y mod 100 =? 0) || (y mod 400 =? 0)).

Definition days_in_month (y m : N) : N :=
  if m =? 2 then (if is_leap y then 29 else 28)
  else if (m =? 4) || (m =? 6) || (m =? 9) || (m =? 11) then 30
  else 31.

(** The range checks of the [datetime] constructor. *)
Definition valid_datetime (d : datetime) : bool :=
  (1 <=? year d) && (year d <=? 9999) &&
  (1 <=? month d) && (month d <=? 12) &&
  (1 <=? day d) && (day d <=? days_in_month (year d) (month d)) &&
  (hour d <? 24) && (minute d <? 60) && (second d <? 60) &&
  (microsecond d <? 1000000).

(** [dt.replace(tzinfo=tz)] *)
Definition replace_tzinfo (d : datetime) (tz : option timezone) : datetime :=
  {| year := year d; month := month d; day := day d;
     hour := hour d; minute := minute d; second := second d;
     microsecond := microsecond d; tzinfo := tz |}.

(** Every character of [s] passes [p]. *)
Fixpoint all_chars (p : ascii -> bool) (s : string) : bool :=
  match s with
  | EmptyString => true
  | String c s' => p c && all_chars p s'
  end.

(** A string whose characters all differ from [a]. *)
Definition without (a : ascii) (s : string) : bool :=
  all_chars (fun c => negb (Ascii.eqb c a)) s.

(** *** [datetime.isoformat] *)

Definition digit_char (n : N) : ascii := ascii_of_N (48 + n mod 10).

(** [w] decimal digits of [n], most significant first (["%0wd"], for an
    [n] below [10^w]). *)
Fixpoint fmt_digits (w : nat) (n : N) : string :=
  match w with
  | O => EmptyString
  | S w' => String (digit_char (n / 10 ^ N.of_nat w')) (fmt_digits w' n)
  end.

Definition format_date (d : datetime) : string :=
  fmt_digits 4 (year d) ++ "-" ++ fmt_digits 2 (month d) ++ "-" ++ fmt_digits 2 (day d).

Definition hh (d : datetime) : string := fmt_digits 2 (hour d).
Definition hhmm (d : datetime) : string := hh d ++ ":" ++ fmt_digits 2 (minute d).
Definition hhmmss (d : datetime) : string := hhmm d ++ ":" ++ fmt_digits 2 (second d).

(** [_format_time]: the time of day at the precision [timespec].  The
    argument parsing of [isoformat] comes first: it refuses a [timespec]
    with a NUL character in it. *)
Definition format_time (d : datetime) (timespec : string) : result string :=
  if negb (without "000" timespec) then inl (ValueError "embedded null character")
  else if String.eqb timespec "auto" then
    inr (if microsecond d =? 0 then hhmmss d
         else hhmmss d ++ "." ++ fmt_digits 6 (microsecond d))
  else if String.eqb timespec "hours" then inr (hh d)
  else if String.eqb timespec "minutes" then inr (hhmm d)
  else if String.eqb timespec "seconds" then inr (hhmmss d)
  else if String.eqb timespec "milliseconds" then
    inr (hhmmss d ++ "." ++ fmt_digits 3 (microsecond d / 1000))
  else if String.eqb timespec "microseconds" then
    inr (hhmmss d ++ "." ++ fmt_digits 6 (microsecond d))
  else inl (ValueError "Unknown timespec value").

(** [_format_offset]: nothing for a naive value, else sign, hours and
    minutes of the offset. *)
Definition format_offset (tz : option timezone) : string :=
  match tz with
  | None => ""
  | Some z =>
      (if tz_negative z then "-" else "+") ++
      fmt_digits 2 (tz_minutes z / 60) ++ ":" ++ fmt_digits 2 (tz_minutes z mod 60)
  end.

Definition isoformat (d : datetime) (timespec : string) : result string :=
  bind_result (format_time d timespec) (fun t =>
  inr (format_date d ++ "T" ++ t ++ format_offset (tzinfo d))).

(** ** [timestamp_utc_iso]

    [now] is the value [datetime.utcnow()] returns at the call: a naive
    datetime holding the UTC wall clock.  [timespec = None] is the call
    that leaves the argument out. *)
Definition timestamp_utc_iso (timespec : option string) (now : datetime) : result string :=
  let timespec := default "seconds" timespec in
  bind_result (isoformat (replace_tzinfo now (Some utc)) timespec) (fun s =>
  inr (str_replace "+00:00" "Z" None s)).

(** The precisions the docstring lists. *)
Definition supported_timespecs : list string :=
  ["auto"; "hours"; "minutes"; "seconds"; "milliseconds"; "microseconds"].

(** The instant [d] cut down to a precision: what is finer than the
    precision is zero ("auto" keeps everything). *)
Definition truncate_to (timespec : string) (d : datetime) : datetime :=
  let keep_minute := negb (String.eqb timespec "hours") in
  let keep_second := keep_minute && negb (String.eqb timespec "minutes") in
  let us :=
    if negb keep_second || String.eqb timespec "seconds" then 0
    else if String.eqb timespec "milliseconds" then microsecond d / 1000 * 1000
    else microsecond d in
  {| year := year d; month := month d; day := day d; hour := hour d;
     minute := if keep_minute then minute d else 0;
     second := if keep_second then second d else 0;
     microsecond := us; tzinfo := tzinfo d |}.

(** ** [dateutil.parser.isoparse]

    The parser is imported from the dateutil library; the repository only
    calls it.  [datetime_from_iso] below takes the parser as a parameter.
    [isoparse] is a model of the library's parser for the calendar-date
    forms of ISO 8601 ([YYYY], [YYYY-MM], [YYYY-MM-DD], [YYYYMMDD], any one
    character as date/time separator, [HH[:MM[:SS[.f+]]]] or the same
    without colons, and [Z], [+HH], [+HHMM] or [+HH:MM] as offset).  It
    follows the library's [_parse_isodate_common], [_parse_isotime] (in
    the form that checks the colons for consistency) and [_parse_tzstr].
    As in the library, a text without offset gives a naive [datetime] and
    a zero offset gives UTC.  Week and ordinal dates, which the library
    tries after the calendar form fails, and the signs and blanks [int]
    would accept inside a number are left out: the model raises
    [ValueError] there.  The messages of the errors of [int] and of the
    [datetime] constructor are abridged.  The library's function is the
    parser's method under the decorator [_takes_ascii], which refuses a
    text that is not ASCII: [isoparse_bytes] is the method, [isoparse] the
    decorated function. *)

Definition digit_val (c : ascii) : option N :=
  let n := N_of_ascii c in
  if (48 <=? n) && (n <=? 57) then Some (n - 48) else None.

Fixpoint digits_acc (acc : N) (s : string) : option N :=
  match s with
  | EmptyString => Some acc
  | String c s' =>
      match digit_val c with
      | Some d => digits_acc (10 * acc + d) s'
      | None => None
      end
  end.

(** [int(s)] for a non-empty run of decimal digits. *)
Definition int_of_digits (s : string) : result N :=
  match s with
  | EmptyString => inl (ValueError "invalid literal for int()")
  | _ =>
      match digits_acc 0 s with
      | Some n => inr n
      | None => inl (ValueError "invalid literal for int()")
      end
  end.

(** [s[:n]] and [s[n:]] *)
Fixpoint str_take (n : nat) (s : string) : string :=
  match n, s with
  | S n', String c s' => String c (str_take n' s')
  | _, _ => EmptyString
  end.

Fixpoint str_drop (n : nat) (s : string) : string :=
  match n, s with
  | S n', String _ s' => str_drop n' s'
  | _, _ => s
  end.

Definition head_is (c : ascii) (s : string) : bool :=
  match s with
  | String a _ => Ascii.eqb a c
  | EmptyString => false
  end.

(** [_parse_isodate_common]: year, month, day and the text left over. *)
Definition parse_isodate_common (dt_str : string) : result (N * N * N * string) :=
  if (String.length dt_str <? 4)%nat then inl (ValueError "ISO string too short") else
  bind_result (int_of_digits (str_take 4 dt_str)) (fun y =>
  let s := str_drop 4 dt_str in
  match s with
  | EmptyString => inr (y, 1, 1, s)
  | _ =>
    let has_sep := head_is "-" s in
    let s := if has_sep then str_drop 1 s else s in
    if (String.length s <? 2)%nat then inl (ValueError "Invalid common month") else
    bind_result (int_of_digits (str_take 2 s)) (fun m =>
    let s := str_drop 2 s in
    match s with
    | EmptyString =>
        if has_sep then inr (y, m, 1, s) else inl (ValueError "Invalid ISO format")
    | _ =>
      if has_sep && negb (head_is "-" s)
      then inl (ValueError "Invalid separator in ISO string") else
      let s := if has_sep then str_drop 1 s else s in
      if (String.length s <? 2)%nat then inl (ValueError "Invalid common day") else
      bind_result (int_of_digits (str_take 2 s)) (fun d =>
      inr (y, m, d, str_drop 2 s))
    end)
  end).

(** [_parse_tzstr] with [zero_as_utc=True]. *)
Definition parse_tzstr (tzstr : string) : result timezone :=
  if String.eqb tzstr "Z" || String.eqb tzstr "z" then inr utc else
  let n := String.length tzstr in
  if negb ((n =? 3)%nat || (n =? 5)%nat || (n =? 6)%nat)
  then inl (ValueError "Time zone offset must be 1, 3, 5 or 6 characters") else
  if negb (head_is "-" tzstr || head_is "+" tzstr)
  then inl (ValueError "Time zone offset requires sign") else
  let negative := head_is "-" tzstr in
  bind_result (int_of_digits (str_take 2 (str_drop 1 tzstr))) (fun hours =>
  bind_result
    (if (n =? 3)%nat then inr 0
     else int_of_digits
            (str_drop (if head_is ":" (str_drop 3 tzstr) then 4 else 3) tzstr))
    (fun minutes =>
  if (hours =? 0) && (minutes =? 0) then inr utc else
  if 59 <? minutes then inl (ValueError "Invalid minutes in time zone offset") else
  if 23 <? hours then inl (ValueError "Invalid hours in time zone offset") else
  inr {| tz_negative := negative; tz_minutes := hours * 60 + minutes |})).

(** The time components [_parse_isotime] fills in. *)
Record components := {
  c_hour : N; c_minute : N; c_second : N; c_us : N;
  c_tz : option timezone
}.

Definition set_component (comp : nat) (v : N) (c : components) : components :=
  match comp with
  | 0%nat => {| c_hour := v; c_minute := c_minute c; c_second := c_second c;
                c_us := c_us c; c_tz := c_tz c |}
  | 1%nat => {| c_hour := c_hour c; c_minute := v; c_second := c_second c;
                c_us := c_us c; c_tz := c_tz c |}
  | 2%nat => {| c_hour := c_hour c; c_minute := c_minute c; c_second := v;
                c_us := c_us c; c_tz := c_tz c |}
  | _ => {| c_hour := c_hour c; c_minute := c_minute c; c_second := c_second c;
            c_us := v; c_tz := c_tz c |}
  end.

Definition set_tz (tz : timezone) (c : components) : components :=
  {| c_hour := c_hour c; c_minute := c_minute c; c_second := c_second c;
     c_us := c_us c; c_tz := Some tz |}.

(** Components read from a text that ends in [Z]. *)
Definition utc_components (h m s us : N) : components :=
  {| c_hour := h; c_minute := m; c_second := s; c_us := us; c_tz := Some utc |}.

(** [timestr[pos:pos + 1] in b'-+Zz'] *)
Definition at_tz_boundary (s : string) : bool :=
  head_is "-" s || head_is "+" s || head_is "Z" s || head_is "z" s.

(** The longest run of digits at the start of [s], and what follows. *)
Fixpoint span_digits (s : string) : string * string :=
  match s with
  | EmptyString => (EmptyString, EmptyString)
  | String c s' =>
      match digit_val c with
      | Some _ => let '(ds, rest) := span_digits s' in (String c ds, rest)
      | None => (EmptyString, s)
      end
  end.

(** [_FRACTION_REGEX.match]: a dot or comma and at least one digit; the
    digits and the text after the match. *)
Definition match_fraction (s : string) : option (string * string) :=
  match s with
  | String c s' =>
      if Ascii.eqb c "." || Ascii.eqb c "," then
        match span_digits s' with
        | (EmptyString, _) => None
        | (ds, rest) => Some (ds, rest)
        end
      else None
  | EmptyString => None
  end.

(** The [while] loop of [_parse_isotime]; [comp] is the component index
    of the iteration, [s] the text from [pos] on.  The result carries the
    text that was not consumed. *)
Fixpoint isotime_loop (fuel comp : nat) (has_sep : bool) (c : components)
    (s : string) : result (components * string) :=
  match fuel, s with
  | O, _ | _, EmptyString => inr (c, s)
  | S fuel', _ =>
      if at_tz_boundary s then
        bind_result (parse_tzstr s) (fun tz => inr (set_tz tz c, EmptyString))
      else
        let colon := head_is ":" s in
        if (comp =? 2)%nat && has_sep && negb colon
        then inl (ValueError "Inconsistent use of colon separator") else
        let has_sep' := if (comp =? 1)%nat && colon then true else has_sep in
        let s1 := if ((comp =? 1)%nat && colon) || ((comp =? 2)%nat && has_sep)
                  then str_drop 1 s else s in
        if (comp <? 3)%nat then
          bind_result (int_of_digits (str_take 2 s1)) (fun v =>
          isotime_loop fuel' (S comp) has_sep' (set_component comp v c) (str_drop 2 s1))
        else if (comp =? 3)%nat then
          match match_fraction s1 with
          | None => isotime_loop fuel' (S comp) has_sep' c s1
          | Some (ds, rest) =>
              let us_str := str_take 6 ds in
              bind_result (int_of_digits us_str) (fun v =>
              isotime_loop fuel' (S comp) has_sep'
                (set_component comp (v * 10 ^ N.of_nat (6 - String.length us_str)) c)
                rest)
          end
        else isotime_loop fuel' (S comp) has_sep' c s1
  end.

Definition parse_isotime (timestr : string) : result components :=
  if (String.length timestr <? 2)%nat then inl (ValueError "ISO time too short") else
  bind_result
    (isotime_loop 6 0 false
       {| c_hour := 0; c_minute := 0; c_second := 0; c_us := 0; c_tz := None |}
       timestr)
    (fun '(c, rest) =>
  match rest with
  | String _ _ => inl (ValueError "Unused components in ISO string")
  | EmptyString =>
      if (c_hour c =? 24) &&
         negb ((c_minute c =? 0) && (c_second c =? 0) && (c_us c =? 0))
      then inl (ValueError "Hour may only be 24 at 24:00:00.000")
      else inr c
  end).

(** The [datetime] constructor: the fields, range-checked. *)
Definition make_datetime (y m d hh mm ss us : N) (tz : option timezone) : result datetime :=
  let dt := {| year := y; month := m; day := d; hour := hh; minute := mm;
               second := ss; microsecond := us; tzinfo := tz |} in
  if valid_datetime dt then inr dt else inl (ValueError "field out of range").

(** [dt + timedelta(days=1)] *)
Definition add_one_day (dt : datetime) : result datetime :=
  let with_date y m d :=
    {| year := y; month := m; day := d; hour := hour dt; minute := minute dt;
       second := second dt; microsecond := microsecond dt; tzinfo := tzinfo dt |} in
  if day dt <? days_in_month (year dt) (month dt)
  then inr (with_date (year dt) (month dt) (day dt + 1))
  else if month dt <? 12 then inr (with_date (year dt) (month dt + 1) 1)
  else if year dt <? 9999 then inr (with_date (year dt + 1) 1 1)
  else inl (OverflowError "date value out of range").

Definition isoparse_bytes (dt_str : string) : result datetime :=
  bind_result (parse_isodate_common dt_str) (fun '(y, m, d, rest) =>
  match rest with
  | EmptyString => make_datetime y m d 0 0 0 0 None
  | String _ timestr =>
      bind_result (parse_isotime timestr) (fun c =>
      if c_hour c =? 24 then
        bind_result
          (make_datetime y m d 0 (c_minute c) (c_second c) (c_us c) (c_tz c))
          add_one_day
      else
        make_datetime y m d (c_hour c) (c_minute c) (c_second c) (c_us c) (c_tz c))
  end).

Definition is_ascii (c : ascii) : bool := N_of_ascii c <? 128.

(** [_takes_ascii]: [str_in.encode('ascii')] before the call. *)
Definition takes_ascii {A} (f : string -> result A) (str_in : string) : result A :=
  if all_chars is_ascii str_in then f str_in
  else inl (ValueError "ISO-8601 strings should contain only ASCII characters").

Definition isoparse : string -> result datetime := takes_ascii isoparse_bytes.

(** ** [datetime_from_iso]

    [parse] is the imported [isoparse]. *)
Definition datetime_from_iso (parse : string -> result datetime)
    (timestamp : string) : result datetime :=
  let timestamp := str_replace " " "T" (Some 1%nat) timestamp in
  parse timestamp.

(** ** The text of a timestamp

    The properties of [datetime_from_iso] further down are stated with the
    definitions below. *)

(** A decimal digit. *)
Definition is_digit (c : ascii) : bool :=
  match digit_val c with Some _ => true | None => false end.

(** One of [b'-+Zz']: where a time zone starts. *)
Definition zone_char (c : ascii) : bool :=
  Ascii.eqb c "-" || Ascii.eqb c "+" || Ascii.eqb c "Z" || Ascii.eqb c "z".

(** The length of the date at the start of [dt_str], by its form: [YYYY],
    [YYYY-MM], [YYYY-MM-DD] or [YYYYMMDD]. *)
Definition date_length (dt_str : string) : nat :=
  if head_is "-" (str_drop 4 dt_str)
  then (if head_is "-" (str_drop 7 dt_str) then 10 else 7)
  else if (String.length dt_str <=? 4)%nat then 4 else 8.

(** [dt_str[pos + 1:]]: the text after the date and the one character
    that separates date and time. *)
Definition time_text (dt_str : string) : string :=
  str_drop (S (date_length dt_str)) dt_str.

(** The time text has a UTC designator or the sign of an offset. *)
Definition carries_zone (dt_str : string) : bool :=
  negb (all_chars (fun c => negb (zone_char c)) (time_text dt_str)).

(** The zone [_parse_tzstr] gives back for an offset: a zero offset is
    UTC. *)
Definition zero_as_utc (tz : option timezone) : option timezone :=
  match tz with
  | Some z => Some (if tz_minutes z =? 0 then utc else z)
  | None => None
  end.

(** An offset is less than a day. *)
Definition zone_in_range (tz : option timezone) : Prop :=
  match tz with
  | Some z => tz_minutes z < 1440
  | None => True
  end.

(** Components read from a text whose zone is [zone]. *)
Definition zone_components (zone : option timezone) (h m s us : N) : components :=
  {| c_hour := h; c_minute := m; c_second := s; c_us := us; c_tz := zone |}.

Definition with_zone (zone : option timezone) (c : components) : components :=
  match zone with
  | Some z => set_tz z c
  | None => c
  end.

(** The characters of a time of day before its zone. *)
Definition body_char (c : ascii) : bool :=
  is_digit c || Ascii.eqb c ":" || Ascii.eqb c "." || Ascii.eqb c ",".

(** The characters Python's [int] reads in a number: digits, a sign, an
    underscore, and the blanks around the number. *)
Definition int_char (c : ascii) : bool :=
  is_digit c || Ascii.eqb c "+" || Ascii.eqb c "-" || Ascii.eqb c "_" ||
  Ascii.eqb c " " || ((9 <=? N_of_ascii c) && (N_of_ascii c <=? 13)).

(** The characters of a date: those of its numbers, the hyphen and the
    [W] of a week date. *)
Definition date_char (c : ascii) : bool := int_char c || Ascii.eqb c "W".

(** The characters of a time of day and its zone. *)
Definition time_char (c : ascii) : bool :=
  int_char c || Ascii.eqb c ":" || Ascii.eqb c "." || Ascii.eqb c "," ||
  Ascii.eqb c "Z" || Ascii.eqb c "z".

(** The outline of an ISO 8601 timestamp: a date of 4, 7, 8 or 10 date
    characters, then nothing, or one separator and time characters only.
    The outline is wider than what [isoparse] above accepts: it leaves
    room for the week and ordinal dates and for the numbers [int] reads
    that are not plain digits, which the library reads and the model
    leaves out, so that a text outside the outline is one that both
    refuse. *)
Definition iso_shaped (dt_str : string) : bool :=
  existsb (fun n => (n <=? String.length dt_str)%nat &&
                    all_chars date_char (str_take n dt_str) &&
                    all_chars time_char (str_drop (S n) dt_str))
          [4; 7; 8; 10]%nat.

(** ** [require_role]: the role gate

    The host supplies the responder, the connection record and the thread
    decorator.  A coroutine is a function of the host's state ([World]);
    the gate's own [await]s are logged in a trace, so that what the gate
    did can be counted. *)

Section AccessGate.
Context {Handler Message Responder Thread Result World : Type}.

(** [ConnectionRecord]: only [their_role] is read. *)
Record ConnectionRecord := { their_role : option string }.

(** [RequestContext]: [connection_record] is [None] when the message
    did not arrive over a known connection. *)
Record RequestContext := {
  connection_record : option ConnectionRecord;
  message : Message
}.

Record ProblemReport := {
  explain_ltxt : string;
  who_retries : string;
  _thread : option Thread
}.

(** What [assign_thread_from] derives from a message (host code). *)
Variable thread_of : Message -> Thread.

Definition assign_thread_from (report : ProblemReport) (msg : Message) : ProblemReport :=
  {| explain_ltxt := explain_ltxt report;
     who_retries := who_retries report;
     _thread := Some (thread_of msg) |}.

(** The report [_wrapped] builds on the rejection path, in one piece. *)
Definition rejection_report (context : RequestContext) : ProblemReport :=
  {| explain_ltxt :=
       "This connection is not authorized to perform the requested action.";
     who_retries := "none";
     _thread := Some (thread_of (message context)) |}.

(** [responder.send_reply], as the host implements it. *)
Variable host_send_reply : Responder -> ProblemReport -> World -> result unit * World.

Inductive event : Type :=
| Sent (responder : Responder) (report : ProblemReport)
| Invoked (handler : Handler) (context : RequestContext) (responder : Responder).

(** A coroutine of the gate: host state and trace in, outcome, host
    state and trace out. *)
Definition coro (A : Type) : Type :=
  World * list event -> result A * (World * list event).

Definition ret {A} (a : A) : coro A := fun st => (inr a, st).

Definition bind {A B} (m : coro A) (k : A -> coro B) : coro B :=
  fun st =>
    match m st with
    | (inl e, st') => (inl e, st')
    | (inr a, st') => k a st'
    end.

(** [await responder.send_reply(report)]; the trace records the call,
    whether the host's send returns or raises. *)
Definition send_reply (responder : Responder) (report : ProblemReport) : coro unit :=
  fun '(w, tr) =>
    let '(r, w') := host_send_reply responder report w in
    (r, (w', (tr ++ [Sent responder report])%list)).

(** The type of a handler function, and [await func(handler, context,
    responder)]. *)
Definition handler_fn : Type :=
  Handler -> RequestContext -> Responder -> World -> result Result * World.

Definition await_func (func : handler_fn) (handler : Handler)
    (context : RequestContext) (responder : Responder) : coro Result :=
  fun '(w, tr) =>
    let '(r, w') := func handler context responder w in
    (r, (w', (tr ++ [Invoked handler context responder])%list)).

(** The test of [_wrapped]: no connection record, or another role. *)
Definition not_authorized (role : string) (context : RequestContext) : bool :=
  match connection_record context with
  | None => true
  | Some record => negb (bool_decide (their_role record = Some role))
  end.

(** [require_role(role)(func)]: the coroutine function [_wrapped].  Its
    value is [None] after the bare [return]. *)
Definition require_role (role : string) (func : handler_fn)
    (handler : Handler) (context : RequestContext) (responder : Responder)
    : coro (option Result) :=
  if not_authorized role context then
    let report :=
      {| explain_ltxt :=
           "This connection is not authorized to perform the requested action.";
         who_retries := "none";
         _thread := None |} in
    let report := assign_thread_from report (message context) in
    bind (send_reply responder report) (fun _ => ret None)
  else
    bind (await_func func handler context responder) (fun r => ret (Some r)).

Definition admin_only (func : handler_fn) := require_role "admin" func.

Definition is_sent (e : event) : bool :=
  match e with Sent _ _ => true | Invoked _ _ _ => false end.

Definition is_invoked (e : event) : bool :=
  match e with Invoked _ _ _ => true | Sent _ _ => false end.

(** How many replies the gate sent, how often it called the function. *)
Definition count_sent (tr : list event) : nat := length (List.filter is_sent tr).
Definition count_invoked (tr : list event) : nat := length (List.filter is_invoked tr).

End AccessGate.

(** ** [generate_model_schema] and [generic_init]

    [Field] stands for marshmallow's field objects and [Value] for the
    Python values keyword arguments carry.  Python gives every class it
    creates an identity of its own; the state threaded through
    [generate_model_schema] is the number of classes created so far, and a
    class is identified by the number it was created at. *)

Section Factory.
Context {Field Value : Type}.

(** Python's [None]. *)
Variable py_none : Value.

(** [str.isidentifier], the language's test for a name. *)
Variable str_isidentifier : string -> bool.

(** The declared fields [AgentMessageSchema] hands down to a subclass
    (marshmallow gives each schema class a mapping of its own, filled
    with the inherited fields). *)
Variable base_declared_fields : gmap string Field.

(** The [schema] argument: a [dict], or some other object, which may
    have a [_declared_fields] mapping. *)
Inductive schema_arg : Type :=
| ArgDict (d : gmap string Field)
| ArgObject (declared_fields : option (gmap string Field)).

(** [list(d.keys())] *)
Definition keys {A} (d : gmap string A) : list string := (map_to_list d).*1.

(** [d.update(other)]: the entries of [other] win. *)
Definition dict_update {A} (d other : gmap string A) : gmap string A := other ∪ d.

Record ModelMeta := {
  handler_class : string;
  message_type : string;
  schema_class : string
}.

(** The [__init__] of a generated model: [generic_init], or the [init]
    the caller passed, a function from the attributes so far and the
    keyword arguments to the attributes afterwards. *)
Inductive initializer : Type :=
| GenericInit
| CustomInit (init : gmap string Value -> gmap string Value -> result (gmap string Value)).

(** A class object.  [model_name] is the name the class statement gives
    the class; the [__name__] the body binds is a class variable like any
    other ([model_name_variable]) and leaves that name alone, whereas the
    [__qualname__] and the [__module__] of the body are the class's own. *)
Record ModelClass := {
  model_id : nat;
  __slots__ : list string;
  model_qualname : string;
  model_name : string;
  model_name_variable : string;
  model_module : string;
  __init__ : initializer;
  Meta : ModelMeta;
  meta_qualname : string
}.

Record SchemaMeta := { model_class : ModelClass }.

Record SchemaClass := {
  schema_id : nat;
  schema_qualname : string;
  schema_name : string;
  schema_name_variable : string;
  schema_module : string;
  schema_meta : SchemaMeta;
  schema_meta_qualname : string;
  _declared_fields : gmap string Field
}.

(** *** What the [class Model] statement checks

    Creating a class with [__slots__] raises when a slot is not an
    identifier, when it is [__dict__] or [__weakref__] (the base class
    [AgentMessage] has both already), or when it is the name of something
    the class body binds: the body of [Model] binds [__slots__],
    [__qualname__], [__name__], [__module__], [__init__], [_type] and
    [Meta], and has a docstring; [__qualname__] alone is let through.  The
    first pass looks at every slot before the second starts.  (Private
    names are mangled before the second pass; a mangled name begins with
    [_Model__] and is none of the names bound.) *)

Definition class_body_names : list string :=
  ["__module__"; "__doc__"; "__slots__"; "__name__"; "__init__"; "_type"; "Meta"].

Fixpoint valid_slot_names (slots : list string) : result unit :=
  match slots with
  | [] => inr tt
  | slot :: slots' =>
      if negb (str_isidentifier slot)
      then inl (TypeError "__slots__ must be identifiers")
      else if String.eqb slot "__dict__"
      then inl (TypeError "__dict__ slot disallowed: we already got one")
      else if String.eqb slot "__weakref__"
      then inl (TypeError
                  "__weakref__ slot disallowed: either we already got one, or __itemsize__ != 0")
      else valid_slot_names slots'
  end.

Fixpoint no_slot_clash (slots : list string) : result unit :=
  match slots with
  | [] => inr tt
  | slot :: slots' =>
      if bool_decide (slot ∈ class_body_names)
      then inl (ValueError ("'" ++ slot ++ "' in __slots__ conflicts with class variable"))
      else no_slot_clash slots'
  end.

Definition check_slots (slots : list string) : result unit :=
  bind_result (valid_slot_names slots) (fun _ => no_slot_clash slots).

(** A name that passes both: an identifier that is not [__dict__], not
    [__weakref__] and not bound by the class body. *)
Definition slot_name_ok (slot : string) : bool :=
  str_isidentifier slot &&
  negb (String.eqb slot "__dict__") && negb (String.eqb slot "__weakref__") &&
  negb (bool_decide (slot ∈ class_body_names)).

(** [caller_module] is [sys._getframe(2).f_globals['__name__']], the
    module the factory is called from; [created] counts the classes
    created before the call. *)
Definition generate_model_schema (name handler msg_type : string)
    (schema : schema_arg) (init : option initializer)
    (caller_module : string) (created : nat)
    : result (ModelClass * SchemaClass) * nat :=
  match
    match schema with
    | ArgDict d => inr (keys d, d)
    | ArgObject (Some declared) => inr (keys declared, declared)
    | ArgObject None =>
        inl (TypeError "Schema must be dict or class defining _declared_fields")
    end
  with
  | inl e => (inl e, created)
  | inr (slots, schema_dict) =>
      match check_slots slots with
      | inl e => (inl e, created)
      | inr _ =>
          let Model :=
            {| model_id := created;
               __slots__ := slots;
               model_qualname := name;
               model_name := "Model";
               model_name_variable := name;
               model_module := caller_module;
               __init__ := default GenericInit init;
               Meta := {| handler_class := handler;
                          message_type := msg_type;
                          schema_class := name ++ "Schema" |};
               meta_qualname := name ++ ".Meta" |} in
          let Schema :=
            {| schema_id := S created;
               schema_qualname := name ++ "Schema";
               schema_name := "Schema";
               schema_name_variable := name ++ "Schema";
               schema_module := caller_module;
               schema_meta := {| model_class := Model |};
               schema_meta_qualname := name ++ "Schema.Meta";
               _declared_fields := base_declared_fields |} in
          let Schema :=
            {| schema_id := schema_id Schema;
               schema_qualname := schema_qualname Schema;
               schema_name := schema_name Schema;
               schema_name_variable := schema_name_variable Schema;
               schema_module := schema_module Schema;
               schema_meta := schema_meta Schema;
               schema_meta_qualname := schema_meta_qualname Schema;
               _declared_fields := dict_update (_declared_fields Schema) schema_dict |} in
          (inr (Model, Schema), S (S created))
      end
  end.

(** An instance of a generated model: its class and its attributes. *)
Record Instance := { cls : ModelClass; attrs : gmap string Value }.

(** The [_type] property of the generated model. *)
Definition _type (self : Instance) : string := message_type (Meta (cls self)).

Definition setattr (instance : Instance) (attr : string) (v : Value) : Instance :=
  {| cls := cls instance; attrs := <[attr := v]> (attrs instance) |}.

(** [AgentMessage.__init__], the initializer [super(...)] resolves to. *)
Variable agent_message_init : Instance -> gmap string Value -> result Instance.

(** One round of the loop of [generic_init]. *)
Definition init_slot (st : Instance * gmap string Value) (slot : string)
    : Instance * gmap string Value :=
  let '(instance, kwargs) := st in
  let instance := setattr instance slot (default py_none (kwargs !! slot)) in
  let kwargs := if bool_decide (is_Some (kwargs !! slot)) then delete slot kwargs else kwargs in
  (instance, kwargs).

Definition generic_init (instance : Instance) (kwargs : gmap string Value) : result Instance :=
  let '(instance, kwargs) := foldl init_slot (instance, kwargs) (__slots__ (cls instance)) in
  agent_message_init instance kwargs.

(** Calling the model class with keyword arguments: a new object of
    the class, then its [__init__]. *)
Definition new_instance (model : ModelClass) (kwargs : gmap string Value) : result Instance :=
  let instance := {| cls := model; attrs := ∅ |} in
  match __init__ model with
  | GenericInit => generic_init instance kwargs
  | CustomInit init =>
      bind_result (init (attrs instance) kwargs) (fun a =>
      inr {| cls := model; attrs := a |})
  end.

End Factory.

(** The connection of the context is recorded with the role [role]. *)
Definition has_role {Message : Type} (role : string)
    (context : @RequestContext Message) : Prop :=
  exists record, connection_record context = Some record /\
                 their_role record = Some role.

(** ** Gates on top of gates

    [require_role(r1)(require_role(r2)(func))]: what the inner gate returns
    is itself a handler function, whose state is the host's state together
    with the inner gate's trace.  The outer gate sends through the same
    responder, which leaves the inner trace alone. *)

Section StackedGates.
Context {Handler Message Responder Thread Result World : Type}.
Variable thread_of : Message -> Thread.
Variable host_send_reply :
  Responder -> @ProblemReport Thread -> World -> result unit * World.

Definition lift_send_reply (responder : Responder) (report : @ProblemReport Thread)
    (st : World * list (@event Handler Message Responder Thread))
    : result unit * (World * list (@event Handler Message Responder Thread)) :=
  let '(w, tr) := st in
  let '(r, w') := host_send_reply responder report w in
  (r, (w', tr)).

Definition require_roles (role1 role2 : string)
    (func : @handler_fn Handler Message Responder Result World) :=
  require_role thread_of lift_send_reply role1
    (require_role thread_of host_send_reply role2 func).

End StackedGates.

(** ** [PassHandler]

    The logger is the one [logging.getLogger(__name__)] returns: whether it
    is enabled for [DEBUG], and the messages it has handled.  The message
    of a record is [msg % args]; with the one [%s] of the handler's format
    that is the first [%s] replaced by the argument. *)

Section PassHandler.
Context {Handler Message Responder : Type}.

(** [context.message._type], a property of the host's message classes
    (for a generated model, [_type] above). *)
Variable message_type_of : Message -> string.

Record Logger := { debug_enabled : bool; handled : list string }.

Definition percent_s (msg arg : string) : string :=
  str_replace "%s" arg (Some 1%nat) msg.

(** [logger.debug(msg, arg)] *)
Definition logger_debug (msg arg : string) (logger : Logger) : Logger :=
  if debug_enabled logger
  then {| debug_enabled := debug_enabled logger;
          handled := (handled logger ++ [percent_s msg arg])%list |}
  else logger.

(** [PassHandler.handle]: a handler function whose state is the logger;
    its value is [None]. *)
Definition handle (self : Handler) (context : @RequestContext Message)
    (_responder : Responder) (logger : Logger) : result unit * Logger :=
  let logger :=
    logger_debug "Pass: Not handling message of type %s"
      (message_type_of (message context)) logger in
  (inr tt, logger).

End PassHandler.

(** ** Sample hosts, for the examples below *)

(** A concrete host for the gate: messages and threads are strings, the
    host state is the list of explanations sent so far, and the wrapped
    function returns 7 without touching the state. *)
Section AccessGateDemo.
Local Open Scope list_scope.

Definition demo_thread_of (msg : string) : string := msg.

Definition demo_send_reply (_ : unit) (report : @ProblemReport string)
    (w : list string) : result unit * list string :=
  (inr tt, w ++ [explain_ltxt report]).

Definition demo_func : @handler_fn unit string unit nat (list string) :=
  fun _ _ _ w => (inr 7%nat, w).

Definition member_context : @RequestContext string :=
  {| connection_record := Some {| their_role := Some "member" |};
     message := "msg-1" |}.

Definition admin_context : @RequestContext string :=
  {| connection_record := Some {| their_role := Some "admin" |};
     message := "msg-2" |}.

Definition demo_gate :=
  @require_role unit string unit string nat (list string)
    demo_thread_of demo_send_reply.
End AccessGateDemo.

(** A concrete setting for the factory: fields are named by strings,
    values are optional numbers with [None] for Python's [None], the base
    schema declares the envelope's type and id, and the base initializer
    accepts [_id] only. *)
Section FactoryDemo.

Definition demo_base_fields : gmap string string :=
  {[ "_type" := "Str"; "_id" := "Str" ]}.

Definition demo_base_init (instance : @Instance (option nat))
    (kwargs : gmap string (option nat)) : result (@Instance (option nat)) :=
  if bool_decide (dom kwargs ⊆ {[ "_id" ]})
  then inr (setattr instance "_message_id" (default None (kwargs !! "_id")))
  else inl (TypeError "__init__() got an unexpected keyword argument").

(** [str.isidentifier] on ASCII text: a letter or an underscore, then
    letters, digits and underscores. *)
Definition ascii_name_start (c : ascii) : bool :=
  let n := N_of_ascii c in
  ((65 <=? n) && (n <=? 90)) || ((97 <=? n) && (n <=? 122)) || (n =? 95).

Definition ascii_name_char (c : ascii) : bool :=
  ascii_name_start c || ((48 <=? N_of_ascii c) && (N_of_ascii c <=? 57)).

Definition ascii_isidentifier (s : string) : bool :=
  match s with
  | EmptyString => false
  | String c s' => ascii_name_start c && all_chars ascii_name_char s'
  end.

Definition demo_build :=
  @generate_model_schema string (option nat) ascii_isidentifier demo_base_fields.

Definition ping_build :=
  demo_build "Ping" "x.PingHandler" "proto/1.0/ping" (ArgDict ∅) None "plugin" 0%nat.

Definition note_build :=
  demo_build "Note" "x.NoteHandler" "proto/1.0/note"
    (ArgDict {[ "comment" := "Str" ]}) None "plugin" 0%nat.

Definition demo_model : @ModelClass (option nat) :=
  {| model_id := 0%nat; __slots__ := ["comment"; "author"];
     model_qualname := "Note"; model_name := "Model"; model_name_variable := "Note";
     model_module := "plugin";
     __init__ := GenericInit;
     Meta := {| handler_class := "x.NoteHandler"; message_type := "proto/1.0/note";
                schema_class := "NoteSchema" |};
     meta_qualname := "Note.Meta" |}.

Definition tagged_build :=
  demo_build "Tagged" "x.TaggedHandler" "proto/1.0/tagged"
    (ArgDict {[ "_id" := "Int"; "comment" := "Str" ]}) None "plugin" 0%nat.

End FactoryDemo.

(** * Properties *)

(** ** The role gate *)

Section AccessGateFacts.
Local Open Scope list_scope.
Context {Handler Message Responder Thread Result World : Type}.
Variable thread_of : Message -> Thread.
Variable host_send_reply :
  Responder -> @ProblemReport Thread -> World -> result unit * World.

Abbreviation RC := (@RequestContext Message).
Abbreviation fn := (@handler_fn Handler Message Responder Result World).
Abbreviation ev := (@event Handler Message Responder Thread).

Lemma count_sent_app (tr1 tr2 : list ev) :
  count_sent (tr1 ++ tr2) = (count_sent tr1 + count_sent tr2)%nat.
Proof. unfold count_sent. by rewrite List.filter_app, length_app. Qed.

Lemma count_invoked_app (tr1 tr2 : list ev) :
  count_invoked (tr1 ++ tr2) = (count_invoked tr1 + count_invoked tr2)%nat.
Proof. unfold count_invoked. by rewrite List.filter_app, length_app. Qed.

Lemma not_authorized_spec (role : string) (context : RC) :
  not_authorized role context = true <->
  (connection_record context = None \/
   exists record, connection_record context = Some record /\
                  their_role record <> Some role).
Proof.
  unfold not_authorized. destruct (connection_record context) as [rec|].
  - rewrite negb_true_iff, bool_decide_eq_false. split.
    + intros Hne. right. by exists rec.
    + intros [Hn | (rec' & Heq & Hne)]; [done | congruence].
  - split; [by left | done].
Qed.

Lemma authorized_spec (role : string) (context : RC) :
  not_authorized role context = false <->
  exists record, connection_record context = Some record /\
                 their_role record = Some role.
Proof.
  unfold not_authorized. destruct (connection_record context) as [rec|].
  - rewrite negb_false_iff, bool_decide_eq_true. split.
    + intros Heq. by exists rec.
    + intros (rec' & Heq & Hr). congruence.
  - split; [done | intros (rec' & Heq & _); done].
Qed.

(** What the gate does on each path, as one equation each. *)
Lemma gate_reject (role : string) (func : fn) handler (context : RC) responder w tr :
  not_authorized role context = true ->
  require_role thread_of host_send_reply role func handler context responder (w, tr) =
    let '(r, w') := host_send_reply responder (rejection_report thread_of context) w in
    (match r with inl e => inl e | inr _ => inr None end,
     (w', tr ++ [Sent responder (rejection_report thread_of context)])).
Proof.
  intros Hna. unfold require_role. rewrite Hna.
  unfold bind, send_reply, ret, assign_thread_from, rejection_report. simpl.
  by destruct (host_send_reply _ _ w) as [[e|[]] w'].
Qed.

Lemma gate_forward (role : string) (func : fn) handler (context : RC) responder w tr :
  not_authorized role context = false ->
  require_role thread_of host_send_reply role func handler context responder (w, tr) =
    let '(r, w') := func handler context responder w in
    (match r with inl e => inl e | inr v => inr (Some v) end,
     (w', tr ++ [Invoked handler context responder])).
Proof.
  intros Hna. unfold require_role. rewrite Hna.
  unfold bind, await_func, ret. simpl.
  by destruct (func handler context responder w) as [[e|v] w'].
Qed.

(** C1 (as amended): when the connection record is missing or its
    [their_role] is not [role], the gate calls [send_reply] once, with a
    report whose text is "This connection is not authorized to perform
    the requested action.", whose retry policy is "none" and whose
    thread is taken from the inbound message; it does not call the
    wrapped function, and returns [None] (or lets the exception of
    [send_reply] through).  The missing record and the other role give
    the same equations. *)
Theorem require_role_rejects (role : string) (func : fn) handler (context : RC)
    responder w (tr : list ev) :
  (connection_record context = None \/
   exists record, connection_record context = Some record /\
                  their_role record <> Some role) ->
  let report :=
    {| explain_ltxt :=
         "This connection is not authorized to perform the requested action.";
       who_retries := "none";
       _thread := Some (thread_of (message context)) |} in
  let sending := host_send_reply responder report w in
  let run := require_role thread_of host_send_reply role func handler context responder (w, tr) in
  run.2.2 = tr ++ [Sent responder report] /\
  count_sent run.2.2 = S (count_sent tr) /\
  count_invoked run.2.2 = count_invoked tr /\
  run.2.1 = sending.2 /\
  run.1 = match sending.1 with inl e => inl e | inr _ => inr None end.
Proof.
  intros Hna%not_authorized_spec report sending run.
  subst run sending report. rewrite (gate_reject _ _ _ _ _ _ _ Hna).
  unfold rejection_report. destruct (host_send_reply _ _ w) as [r w']. simpl.
  rewrite count_sent_app, count_invoked_app.
  repeat split; try reflexivity; unfold count_sent, count_invoked; simpl; lia.
Qed.

(** C2: when the connection record is there and its [their_role] is
    [role], the gate calls the wrapped function once, with the handler,
    context and responder it was given, returns its result (or lets its
    exception through) and sends nothing itself. *)
Theorem require_role_forwards (role : string) (func : fn) handler (context : RC)
    responder w (tr : list ev) :
  (exists record, connection_record context = Some record /\
                  their_role record = Some role) ->
  let call := func handler context responder w in
  let run := require_role thread_of host_send_reply role func handler context responder (w, tr) in
  run.2.2 = tr ++ [Invoked handler context responder] /\
  count_invoked run.2.2 = S (count_invoked tr) /\
  count_sent run.2.2 = count_sent tr /\
  run.2.1 = call.2 /\
  run.1 = match call.1 with inl e => inl e | inr v => inr (Some v) end.
Proof.
  intros Ha%authorized_spec call run.
  subst run call. rewrite (gate_forward _ _ _ _ _ _ _ Ha).
  destruct (func handler context responder w) as [r w']. simpl.
  rewrite count_sent_app, count_invoked_app.
  repeat split; try reflexivity; unfold count_sent, count_invoked; simpl; lia.
Qed.

(** C3: one invocation of the gate, started with an empty trace, either
    calls the wrapped function once and sends nothing, or sends one
    reply and does not call the wrapped function. *)
Theorem require_role_one_path (role : string) (func : fn) handler (context : RC)
    responder w :
  let tr := (require_role thread_of host_send_reply role func handler context responder (w, [])).2.2 in
  (count_invoked tr = 1%nat /\ count_sent tr = 0%nat) \/
  (count_invoked tr = 0%nat /\ count_sent tr = 1%nat).
Proof.
  intros tr. subst tr.
  destruct (not_authorized role context) eqn:Hna.
  - right. rewrite (gate_reject _ _ _ _ _ _ _ Hna).
    by destruct (host_send_reply _ _ w).
  - left. rewrite (gate_forward _ _ _ _ _ _ _ Hna).
    by destruct (func handler context responder w).
Qed.

End AccessGateFacts.

(** C1, as the claim words it, fails on the text of the report: for a
    "member" connection at the "admin" gate no report with the text "this
    connection is not authorized to perform the requested action" is sent
    (the text sent starts with a capital letter and ends with a full stop). *)
Lemma require_role_text_counterexample :
  ~ exists report,
      (demo_gate "admin" demo_func tt member_context tt ([], [])).2.2
        = [Sent tt report] /\
      explain_ltxt report
        = "this connection is not authorized to perform the requested action".
Proof.
  intros (report & Htr & Htxt). vm_compute in Htr.
  injection Htr as <-. discriminate Htxt.
Qed.

Lemma require_role_rejects_witness :
  (connection_record member_context = None \/
   exists record, connection_record member_context = Some record /\
                  their_role record <> Some "admin") /\
  (demo_gate "admin" demo_func tt member_context tt ([], [])).2.2
    = [Sent tt {| explain_ltxt :=
                    "This connection is not authorized to perform the requested action.";
                  who_retries := "none";
                  _thread := Some "msg-1" |}].
Proof.
  assert (Hhyp : connection_record member_context = None \/
                 exists record, connection_record member_context = Some record /\
                                their_role record <> Some "admin").
  { right. eexists. split; [reflexivity | discriminate]. }
  split; [exact Hhyp |].
  exact (proj1 (require_role_rejects demo_thread_of demo_send_reply
                  "admin" demo_func tt member_context tt [] [] Hhyp)).
Defined.

Lemma require_role_forwards_witness :
  (exists record, connection_record admin_context = Some record /\
                  their_role record = Some "admin") /\
  (demo_gate "admin" demo_func tt admin_context tt ([], [])).2.2
    = [Invoked tt admin_context tt].
Proof.
  assert (Hhyp : exists record, connection_record admin_context = Some record /\
                                their_role record = Some "admin").
  { eexists. split; reflexivity. }
  split; [exact Hhyp |].
  exact (proj1 (require_role_forwards demo_thread_of demo_send_reply
                  "admin" demo_func tt admin_context tt [] [] Hhyp)).
Defined.

(** ** The message-type factory *)

Section FactoryFacts.
Context {Field Value : Type}.
Variable py_none : Value.
Variable str_isidentifier : string -> bool.
Variable base_declared_fields : gmap string Field.
Variable agent_message_init :
  @Instance Value -> gmap string Value -> result (@Instance Value).

Lemma keys_NoDup {A} (d : gmap string A) : NoDup (keys d).
Proof. apply NoDup_fst_map_to_list. Qed.

Lemma elem_of_keys {A} (d : gmap string A) (k : string) : k ∈ keys d <-> k ∈ dom d.
Proof.
  unfold keys. rewrite elem_of_dom, list_elem_of_fmap. split.
  - intros ([k' v] & -> & Hin). apply elem_of_map_to_list in Hin. by exists v.
  - intros [v Hv]. exists (k, v). split; [done | by apply elem_of_map_to_list].
Qed.

Lemma keys_to_set {A} (d : gmap string A) : list_to_set (keys d) = dom d.
Proof.
  apply set_eq. intros k. by rewrite elem_of_list_to_set, elem_of_keys.
Qed.

(** The two passes over the slots succeed exactly when every slot passes
    [slot_name_ok]. *)
Lemma check_slots_ok (slots : list string) :
  check_slots str_isidentifier slots = inr tt <->
  Forall (fun slot => slot_name_ok str_isidentifier slot = true) slots.
Proof.
  unfold check_slots.
  assert (Hvalid : forall l,
            valid_slot_names str_isidentifier l = inr tt <->
            Forall (fun slot => str_isidentifier slot = true /\
                                slot <> "__dict__" /\ slot <> "__weakref__") l).
  { induction l as [| slot l IH]; cbn [valid_slot_names].
    - split; [constructor | done].
    - rewrite Forall_cons.
      destruct (str_isidentifier slot); cbn [negb]; [| split; [done | intuition congruence]].
      destruct (String.eqb_spec slot "__dict__"); [split; [done | intuition congruence] |].
      destruct (String.eqb_spec slot "__weakref__"); [split; [done | intuition congruence] |].
      rewrite IH. intuition congruence. }
  assert (Hclash : forall l,
            no_slot_clash l = inr tt <-> Forall (fun slot => slot ∉ class_body_names) l).
  { induction l as [| slot l IH]; cbn [no_slot_clash].
    - split; [constructor | done].
    - rewrite Forall_cons. case_bool_decide; [split; [done | intuition congruence] |].
      rewrite IH. intuition congruence. }
  destruct (valid_slot_names str_isidentifier slots) as [e | []] eqn:Hv; cbn [bind_result].
  - split; [done |]. intros Hok. exfalso.
    assert (Hv' : valid_slot_names str_isidentifier slots = inr tt); [| congruence].
    apply Hvalid. eapply Forall_impl; [exact Hok |]. intros slot. unfold slot_name_ok.
    rewrite !andb_true_iff, !negb_true_iff.
    intros [[[Hid Hd] Hw] _]. repeat split; [done | |].
    + by destruct (String.eqb_spec slot "__dict__").
    + by destruct (String.eqb_spec slot "__weakref__").
  - apply Hvalid in Hv. rewrite Hclash, !Forall_forall. split.
    + intros Hc slot Hin. unfold slot_name_ok.
      rewrite Forall_forall in Hv. destruct (Hv slot Hin) as (Hid & Hd & Hw).
      rewrite Hid. apply String.eqb_neq in Hd, Hw. rewrite Hd, Hw.
      cbn [negb andb]. rewrite negb_true_iff, bool_decide_eq_false. by apply Hc.
    + intros Hok slot Hin. specialize (Hok slot Hin). unfold slot_name_ok in Hok.
      rewrite !andb_true_iff, !negb_true_iff, bool_decide_eq_false in Hok. tauto.
Qed.

(** The factory on a mapping whose names pass the checks: both classes,
    in closed form. *)
Lemma build_checked name handler msg_type schema (d : gmap string Field)
    init caller created :
  schema = ArgDict d \/ schema = ArgObject (Some d) ->
  check_slots str_isidentifier (keys d) = inr tt ->
  generate_model_schema (Value := Value) str_isidentifier base_declared_fields
    name handler msg_type schema init caller created =
    let Model :=
      {| model_id := created; __slots__ := keys d;
         model_qualname := name; model_name := "Model"; model_name_variable := name;
         model_module := caller;
         __init__ := default GenericInit init;
         Meta := {| handler_class := handler; message_type := msg_type;
                    schema_class := name ++ "Schema" |};
         meta_qualname := name ++ ".Meta" |} in
    (inr (Model,
          {| schema_id := S created;
             schema_qualname := name ++ "Schema";
             schema_name := "Schema"; schema_name_variable := name ++ "Schema";
             schema_module := caller;
             schema_meta := {| model_class := Model |};
             schema_meta_qualname := name ++ "Schema.Meta";
             _declared_fields := d ∪ base_declared_fields |}),
     S (S created)).
Proof.
  intros [-> | ->] Hok; unfold generate_model_schema; by rewrite Hok.
Qed.

(** A build that returns has passed the checks. *)
Lemma build_inv name handler msg_type schema init caller created M Sc created' :
  generate_model_schema (Value := Value) str_isidentifier base_declared_fields
    name handler msg_type schema init caller created = (inr (M, Sc), created') ->
  exists d, (schema = ArgDict d \/ schema = ArgObject (Some d)) /\
            check_slots str_isidentifier (keys d) = inr tt.
Proof.
  unfold generate_model_schema.
  destruct schema as [d | [d |]]; [| | done];
    (destruct (check_slots str_isidentifier (keys d)) as [e | []] eqn:Hc; [done |]);
    intros _; exists d; auto.
Qed.

Lemma build_dict name handler msg_type (d : gmap string Field) init caller created :
  check_slots str_isidentifier (keys d) = inr tt ->
  generate_model_schema (Value := Value) str_isidentifier base_declared_fields
    name handler msg_type (ArgDict d) init caller created =
    let Model :=
      {| model_id := created; __slots__ := keys d;
         model_qualname := name; model_name := "Model"; model_name_variable := name;
         model_module := caller;
         __init__ := default GenericInit init;
         Meta := {| handler_class := handler; message_type := msg_type;
                    schema_class := name ++ "Schema" |};
         meta_qualname := name ++ ".Meta" |} in
    (inr (Model,
          {| schema_id := S created;
             schema_qualname := name ++ "Schema";
             schema_name := "Schema"; schema_name_variable := name ++ "Schema";
             schema_module := caller;
             schema_meta := {| model_class := Model |};
             schema_meta_qualname := name ++ "Schema.Meta";
             _declared_fields := d ∪ base_declared_fields |}),
     S (S created)).
Proof. intros Hok. apply build_checked; auto. Qed.

(** Whatever the shape of [schema], a model the factory returns carries
    the three values it was given. *)
Lemma build_meta name handler msg_type schema init caller created M Sc created' :
  generate_model_schema (Value := Value) str_isidentifier base_declared_fields
    name handler msg_type schema init caller created = (inr (M, Sc), created') ->
  Meta M = {| handler_class := handler; message_type := msg_type;
              schema_class := name ++ "Schema" |}.
Proof.
  intros Hb. destruct (build_inv _ _ _ _ _ _ _ _ _ _ Hb) as (d & Hshape & Hok).
  rewrite (build_checked _ _ _ _ d _ _ _ Hshape Hok) in Hb. cbv zeta in Hb.
  by simplify_eq.
Qed.

(** C4: a [schema] argument that is not a [dict] and has no
    [_declared_fields] makes the factory raise (a [TypeError]); no pair
    of classes is returned and no class has been created. *)
Theorem generate_model_schema_rejects name handler msg_type init caller created :
  generate_model_schema (Value := Value) str_isidentifier base_declared_fields name handler msg_type (ArgObject None) init caller created =
    (inl (TypeError "Schema must be dict or class defining _declared_fields"),
     created).
Proof. reflexivity. Qed.

(** C5: the [_type] of an instance of a generated model is the
    [msg_type] the factory was given, character for character. *)
Theorem generated_type_is_msg_type name handler msg_type schema init caller
    created M Sc created' (self : @Instance Value) :
  generate_model_schema (Value := Value) str_isidentifier base_declared_fields name handler msg_type schema init caller created = (inr (M, Sc), created') ->
  cls self = M ->
  _type self = msg_type.
Proof.
  intros Hb%build_meta <-. unfold _type. by rewrite Hb.
Qed.

Lemma check_slots_keys (fields : gmap string Field) :
  (forall k, k ∈ dom fields -> slot_name_ok str_isidentifier k = true) ->
  check_slots str_isidentifier (keys fields) = inr tt.
Proof.
  intros Hok. apply check_slots_ok, Forall_forall. intros k Hk.
  by apply Hok, elem_of_keys.
Qed.

(** C6 (as amended): when every field name is an identifier other than
    [__dict__], [__weakref__] and the names the body of the model class
    binds, two calls of the factory with the same descriptor, one after
    the other, each return a model and a schema; the four classes are
    distinct; each model's slots are the keys of [fields]; both models
    carry the same handler, message type and schema name; each schema's
    declared fields are [fields] together with the inherited ones; each
    schema's [Meta.model_class] is the model it was returned with. *)
Theorem generate_model_schema_twice name handler msg_type (fields : gmap string Field)
    init caller created :
  (forall k, k ∈ dom fields -> slot_name_ok str_isidentifier k = true) ->
  exists M1 S1 M2 S2 created1 created2,
    generate_model_schema (Value := Value) str_isidentifier base_declared_fields
      name handler msg_type (ArgDict fields) init caller created
      = (inr (M1, S1), created1) /\
    generate_model_schema (Value := Value) str_isidentifier base_declared_fields
      name handler msg_type (ArgDict fields) init caller created1
      = (inr (M2, S2), created2) /\
    NoDup [model_id M1; schema_id S1; model_id M2; schema_id S2] /\
    (list_to_set (__slots__ M1) = dom fields /\
     list_to_set (__slots__ M2) = dom fields /\
     NoDup (__slots__ M1) /\ NoDup (__slots__ M2)) /\
    (Meta M1 = Meta M2 /\
     Meta M1 = {| handler_class := handler; message_type := msg_type;
                  schema_class := name ++ "Schema" |}) /\
    (_declared_fields S1 = fields ∪ base_declared_fields /\
     _declared_fields S2 = fields ∪ base_declared_fields /\
     dom (_declared_fields S1) = dom fields ∪ dom base_declared_fields) /\
    (model_class (schema_meta S1) = M1 /\ model_class (schema_meta S2) = M2).
Proof.
  intros Hok%check_slots_keys.
  do 6 eexists. rewrite !(build_dict _ _ _ _ _ _ _ Hok). cbn zeta.
  split; [reflexivity |]. split; [reflexivity |]. cbn.
  split.
  { rewrite !NoDup_cons, !elem_of_cons, !elem_of_nil.
    repeat split; try (intuition lia). apply NoDup_nil_2. }
  split.
  { rewrite keys_to_set. pose proof (keys_NoDup fields). auto. }
  split; [done |].
  split; [| done].
  split; [done |]. split; [done |]. apply dom_union_L.
Qed.

Lemma build_slots name handler msg_type schema init caller created M Sc created' :
  generate_model_schema (Value := Value) str_isidentifier base_declared_fields name handler msg_type schema init caller created = (inr (M, Sc), created') ->
  NoDup (__slots__ M) /\ __init__ M = default GenericInit init.
Proof.
  intros Hb. destruct (build_inv _ _ _ _ _ _ _ _ _ _ Hb) as (d & Hshape & Hok).
  rewrite (build_checked _ _ _ _ d _ _ _ Hshape Hok) in Hb. cbv zeta in Hb.
  simplify_eq. cbn. auto using @keys_NoDup.
Qed.

Lemma init_slot_eq (instance : @Instance Value) kwargs slot :
  init_slot py_none (instance, kwargs) slot =
    (setattr instance slot (default py_none (kwargs !! slot)), delete slot kwargs).
Proof.
  unfold init_slot. f_equal. case_bool_decide as Hs; [done |].
  symmetry. apply delete_id. by apply eq_None_not_Some.
Qed.

(** The loop of [generic_init] over slots without repetition. *)
Lemma init_slots_run (slots : list string) :
  forall (instance : @Instance Value) (kwargs : gmap string Value),
  NoDup slots ->
  let st := foldl (init_slot py_none) (instance, kwargs) slots in
  cls st.1 = cls instance /\
  (forall k, attrs st.1 !! k =
               if decide (k ∈ slots) then Some (default py_none (kwargs !! k))
               else attrs instance !! k) /\
  (forall k, st.2 !! k = if decide (k ∈ slots) then None else kwargs !! k).
Proof.
  induction slots as [| slot slots IH]; intros instance kwargs Hnd.
  - cbn. repeat split; intros k; by rewrite decide_False by apply not_elem_of_nil.
  - apply NoDup_cons in Hnd as [Hnotin Hnd].
    cbn [foldl]. rewrite init_slot_eq.
    destruct (IH (setattr instance slot (default py_none (kwargs !! slot)))
                 (delete slot kwargs) Hnd) as (Hcls & Hattrs & Hkw).
    split; [exact Hcls |]. split; intros k.
    + rewrite Hattrs. destruct (decide (k ∈ slots)) as [Hin | Hin].
      * rewrite decide_True by (rewrite elem_of_cons; tauto).
        rewrite lookup_delete_ne by (intros ->; done). done.
      * cbn. destruct (decide (k = slot)) as [-> | Hne].
        -- rewrite decide_True by (rewrite elem_of_cons; tauto).
           by rewrite lookup_insert_eq.
        -- rewrite decide_False by (rewrite elem_of_cons; tauto).
           by rewrite lookup_insert_ne.
    + rewrite Hkw. destruct (decide (k ∈ slots)) as [Hin | Hin].
      * by rewrite decide_True by (rewrite elem_of_cons; tauto).
      * destruct (decide (k = slot)) as [-> | Hne].
        -- rewrite decide_True by (rewrite elem_of_cons; tauto).
           by rewrite lookup_delete_eq.
        -- rewrite decide_False by (rewrite elem_of_cons; tauto).
           by rewrite lookup_delete_ne.
Qed.


End FactoryFacts.

Lemma generated_type_is_msg_type_witness :
  exists M Sc,
    ping_build = (inr (M, Sc), 2%nat) /\
    _type {| cls := M; attrs := ∅ |} = "proto/1.0/ping".
Proof.
  eexists _, _. split; [reflexivity |].
  exact (generated_type_is_msg_type ascii_isidentifier demo_base_fields
           "Ping" "x.PingHandler" "proto/1.0/ping" (ArgDict ∅) None "plugin" 0%nat
           _ _ 2%nat {| cls := _; attrs := ∅ |} eq_refl eq_refl).
Defined.

(** C6, as the claim words it, fails on a descriptor with a field named
    [_type]: the class statement refuses the slot, the factory raises and
    returns no pair. *)
Lemma generate_model_schema_reserved_name_counterexample :
  ~ exists M Sc created',
      demo_build "Bad" "x.BadHandler" "proto/1.0/bad"
        (ArgDict {[ "_type" := "Str" ]}) None "plugin" 0%nat
      = (inr (M, Sc), created').
Proof.
  intros (M & Sc & created' & Hb).
  assert (Hraise :
    demo_build "Bad" "x.BadHandler" "proto/1.0/bad"
      (ArgDict {[ "_type" := "Str" ]}) None "plugin" 0%nat
    = (inl (ValueError "'_type' in __slots__ conflicts with class variable"), 0%nat))
    by (vm_compute; reflexivity).
  rewrite Hraise in Hb. discriminate Hb.
Qed.

Lemma generate_model_schema_twice_witness :
  (forall k, k ∈ dom ({[ "comment" := "Str" ]} : gmap string string) ->
             slot_name_ok ascii_isidentifier k = true) /\
  exists M1 S1 M2 S2,
    note_build = (inr (M1, S1), 2%nat) /\
    demo_build "Note" "x.NoteHandler" "proto/1.0/note"
      (ArgDict {[ "comment" := "Str" ]}) None "plugin" 2%nat
      = (inr (M2, S2), 4%nat) /\
    model_id M1 <> model_id M2 /\
    Meta M1 = Meta M2.
Proof.
  assert (Hok : forall k, k ∈ dom ({[ "comment" := "Str" ]} : gmap string string) ->
                          slot_name_ok ascii_isidentifier k = true).
  { intros k. rewrite dom_singleton_L, elem_of_singleton. by intros ->. }
  split; [exact Hok |].
  destruct (generate_model_schema_twice (Value := option nat) ascii_isidentifier
              demo_base_fields "Note" "x.NoteHandler" "proto/1.0/note"
              {[ "comment" := "Str" ]} None "plugin" 0%nat Hok)
    as (M1 & S1 & M2 & S2 & c1 & c2 & H1 & H2 & Hnd & _ & (Hmeta & _) & _).
  assert (Hc1 : c1 = 2%nat).
  { change (note_build = (inr (M1, S1), c1)) in H1.
    apply (f_equal snd) in H1. vm_compute in H1. congruence. }
  subst c1.
  assert (Hc2 : c2 = 4%nat).
  { apply (f_equal snd) in H2. vm_compute in H2. congruence. }
  subst c2.
  exists M1, S1, M2, S2. split; [exact H1 |]. split; [exact H2 |].
  split; [| exact Hmeta].
  rewrite !NoDup_cons, !elem_of_cons in Hnd. tauto.
Defined.


(** ** Timestamps *)

Ltac Zify.zify_post_hook ::= Z.to_euclidean_division_equations.

Lemma N_below_10 (P : N -> Prop) :
  P 0 -> P 1 -> P 2 -> P 3 -> P 4 -> P 5 -> P 6 -> P 7 -> P 8 -> P 9 ->
  forall d, d < 10 -> P d.
Proof.
  intros H0 H1 H2 H3 H4 H5 H6 H7 H8 H9 d Hd.
  assert (Hc : d = 0 \/ d = 1 \/ d = 2 \/ d = 3 \/ d = 4 \/ d = 5 \/
               d = 6 \/ d = 7 \/ d = 8 \/ d = 9) by lia.
  repeat (destruct Hc as [-> | Hc]; [assumption |]). by subst.
Qed.

(** A digit character is a digit and no other character. *)
Lemma digit_val_digit_char (n : N) : digit_val (digit_char n) = Some (n mod 10).
Proof.
  unfold digit_char. pattern (n mod 10).
  apply N_below_10; try reflexivity. by apply N.mod_lt.
Qed.

Lemma digit_char_eqb (n : N) (c : ascii) :
  digit_val c = None -> Ascii.eqb (digit_char n) c = false.
Proof.
  intros Hc. apply Ascii.eqb_neq. intros <-.
  by rewrite digit_val_digit_char in Hc.
Qed.

Lemma all_chars_app (p : ascii -> bool) (s1 s2 : string) :
  all_chars p (s1 ++ s2) = all_chars p s1 && all_chars p s2.
Proof.
  induction s1 as [| c s1 IH]; simpl; [done |].
  by rewrite IH, andb_assoc.
Qed.

Lemma all_chars_cons (p : ascii -> bool) (c : ascii) (s : string) :
  all_chars p (String c s) = p c && all_chars p s.
Proof. reflexivity. Qed.

Lemma is_ascii_fmt_digits (w : nat) (n : N) :
  all_chars is_ascii (fmt_digits w n) = true.
Proof.
  induction w as [| w IH]; [done |]. cbn [fmt_digits all_chars]. rewrite IH.
  pose proof (digit_val_digit_char (n / 10 ^ N.of_nat w)) as Hd.
  unfold digit_val in Hd. unfold is_ascii.
  destruct (_ && _) eqn:E in Hd; [| done].
  apply andb_prop in E as [_ E%N.leb_le].
  assert ((N_of_ascii (digit_char (n / 10 ^ N.of_nat w)) <? 128) = true) as ->
    by (apply N.ltb_lt; lia).
  done.
Qed.

(** A text made of digits, literal characters and ASCII parts is ASCII. *)
Ltac ascii_text :=
  repeat first
    [ rewrite all_chars_app
    | rewrite is_ascii_fmt_digits
    | rewrite all_chars_cons
    | match goal with H : all_chars is_ascii _ = true |- _ => rewrite H end ];
  reflexivity.

Lemma without_fmt_digits (a : ascii) (w : nat) (n : N) :
  digit_val a = None -> without a (fmt_digits w n) = true.
Proof.
  intros Ha. unfold without. induction w as [| w IH]; cbn; [done |].
  by rewrite (digit_char_eqb _ _ Ha), IH.
Qed.

(** [str.replace] leaves a string alone in which the first character of
    [old] does not occur. *)
Lemma replace_absent (a : ascii) (old' new : string) (count : option nat) (s : string) :
  without a s = true -> replace_from (String a old') new count 0 s = s.
Proof.
  unfold without. induction s as [| c s IH]; simpl; [done |].
  intros [Hc Hs]%andb_prop. apply negb_true_iff in Hc.
  destruct count as [[| n] |]; [done | |];
    by rewrite Ascii.eqb_sym, Hc, (IH Hs).
Qed.

Lemma replace_exhausted (old new s : string) : replace_from old new (Some O) 0 s = s.
Proof. by destruct s. Qed.

Lemma append_nil_l (t : string) : "" ++ t = t.
Proof. reflexivity. Qed.

Lemma append_cons (c : ascii) (s t : string) : String c s ++ t = String c (s ++ t).
Proof. reflexivity. Qed.

Lemma append_empty_r (s : string) : s ++ "" = s.
Proof.
  induction s as [| c s IH]; [done |]. by rewrite append_cons, IH.
Qed.

Lemma starts_with_refl (s t : string) : starts_with s (s ++ t) = true.
Proof.
  induction s as [| c s IH]; [done |].
  rewrite append_cons. simpl. by rewrite Ascii.eqb_refl.
Qed.

(** The characters of a matched occurrence are passed over. *)
Lemma replace_skip_prefix (old new : string) (count : option nat) (pre s : string) :
  replace_from old new count (String.length pre) (pre ++ s) =
    replace_from old new count 0 s.
Proof.
  induction pre as [| c pre IH]; [done |].
  rewrite append_cons. simpl. apply IH.
Qed.

(** One occurrence of [old], after a text without its first character. *)
Lemma replace_after (a : ascii) (old' new : string) (count : option nat)
    (body rest : string) :
  count <> Some O ->
  without a body = true ->
  replace_from (String a old') new count 0 (body ++ String a (old' ++ rest)) =
    body ++ new ++ replace_from (String a old') new (pred <$> count) 0 rest.
Proof.
  intros Hcount. unfold without.
  destruct count as [[| n] |]; [done | |];
    (induction body as [| c body IH];
     [ intros _; rewrite append_nil_l; simpl;
       by rewrite Ascii.eqb_refl, starts_with_refl, Nat.sub_0_r, replace_skip_prefix
     | simpl; intros [Hc Hs]%andb_prop; apply negb_true_iff in Hc;
       rewrite (append_cons c body); simpl;
       by rewrite Ascii.eqb_sym, Hc, (IH Hs) ]).
Qed.

(** The only [+00:00] of an isoformat text is its offset. *)
Lemma replace_offset (body : string) :
  without "+" body = true ->
  str_replace "+00:00" "Z" None (body ++ "+00:00") = body ++ "Z".
Proof.
  intros Hb. unfold str_replace.
  change "+00:00" with (String "+" ("00:00" ++ "")) at 2.
  by rewrite (replace_after "+" "00:00" "Z" None body "" ltac:(done) Hb).
Qed.

(** The first blank, and only that one, becomes a [T]. *)
Lemma replace_first_space (a b : string) :
  without " " a = true ->
  str_replace " " "T" (Some 1%nat) (a ++ " " ++ b) = a ++ "T" ++ b.
Proof.
  intros Ha. unfold str_replace.
  change (" " ++ b) with (String " " ("" ++ b)).
  rewrite (replace_after " " "" "T" (Some 1%nat) a b ltac:(done) Ha).
  change (pred <$> Some 1%nat) with (Some O). by rewrite replace_exhausted.
Qed.

Lemma contains_absent (a : ascii) (sub' s : string) :
  without a s = true -> contains (String a sub') s = false.
Proof.
  unfold without. induction s as [| c s IH]; simpl; [done |].
  intros [Hc Hs]%andb_prop. apply negb_true_iff in Hc.
  by rewrite Ascii.eqb_sym, Hc, (IH Hs).
Qed.

Lemma supported_timespecs_cases (p : string) :
  p ∈ supported_timespecs ->
  p = "auto" \/ p = "hours" \/ p = "minutes" \/ p = "seconds" \/
  p = "milliseconds" \/ p = "microseconds".
Proof.
  unfold supported_timespecs. rewrite !elem_of_cons, elem_of_nil. tauto.
Qed.

Lemma without_app (a : ascii) (s1 s2 : string) :
  without a (s1 ++ s2) = without a s1 && without a s2.
Proof. apply all_chars_app. Qed.

(** The parts of an isoformat text before its offset have neither a plus
    sign nor a blank. *)
Lemma without_isoformat_parts (a : ascii) (d : datetime) :
  a = "+"%char \/ a = " "%char ->
  without a (format_date d) = true /\
  without a (hh d) = true /\ without a (hhmm d) = true /\
  without a (hhmmss d) = true /\
  forall w n, without a (hhmmss d ++ "." ++ fmt_digits w n) = true.
Proof.
  intros Ha.
  assert (Hdigits : forall w n, without a (fmt_digits w n) = true).
  { intros w n. apply without_fmt_digits. by destruct Ha as [-> | ->]. }
  assert (Hsep : without a "-" = true /\ without a ":" = true /\ without a "." = true).
  { by destruct Ha as [-> | ->]. }
  destruct Hsep as (Hdash & Hcolon & Hdot).
  unfold format_date, hhmmss, hhmm, hh.
  repeat split; intros; by rewrite ?without_app, ?Hdigits, ?Hdash, ?Hcolon, ?Hdot.
Qed.

(** [isoformat] succeeds on the listed precisions, and its text before
    the offset has neither a plus sign nor a blank. *)
Lemma isoformat_body (d : datetime) (p : string) :
  p ∈ supported_timespecs ->
  exists t, format_time d p = inr t /\
            without "+" (format_date d ++ "T" ++ t) = true /\
            without " " (format_date d ++ "T" ++ t) = true.
Proof.
  intros Hp%supported_timespecs_cases.
  destruct (without_isoformat_parts "+" d) as (Pd & Ph & Pm & Ps & Pf); [by left |].
  destruct (without_isoformat_parts " " d) as (Bd & Bh & Bm & Bs & Bf); [by right |].
  assert (Hall : forall t, without "+" t = true -> without " " t = true ->
                   without "+" (format_date d ++ "T" ++ t) = true /\
                   without " " (format_date d ++ "T" ++ t) = true).
  { intros t Ht1 Ht2. by rewrite !without_app, Pd, Bd, Ht1, Ht2. }
  unfold format_time.
  destruct Hp as [-> | [-> | [-> | [-> | [-> | ->]]]]];
    cbn [String.eqb Ascii.eqb Bool.eqb without all_chars negb andb];
    eexists; (split; [reflexivity |]); try (apply Hall; solve [auto]).
  destruct (microsecond d =? 0); apply Hall; auto.
Qed.

Lemma append_assoc (s1 s2 s3 : string) : (s1 ++ s2) ++ s3 = s1 ++ s2 ++ s3.
Proof.
  induction s1 as [| c s1 IH]; [done |]. by rewrite !append_cons, IH.
Qed.

(** The text [timestamp_utc_iso] returns, for any clock reading. *)
Lemma timestamp_utc_iso_eq (now : datetime) (p t : string) :
  format_time now p = inr t ->
  without "+" (format_date now ++ "T" ++ t) = true ->
  timestamp_utc_iso (Some p) now = inr (format_date now ++ "T" ++ t ++ "Z").
Proof.
  intros Ht Hplus. unfold timestamp_utc_iso, isoformat.
  change (format_time (replace_tzinfo now (Some utc)) (default "seconds" (Some p)))
    with (format_time now p).
  rewrite Ht. cbn [bind_result].
  change (format_date (replace_tzinfo now (Some utc))) with (format_date now).
  change (format_offset (tzinfo (replace_tzinfo now (Some utc)))) with "+00:00".
  rewrite <- !append_assoc, replace_offset by (by rewrite append_assoc).
  by rewrite !append_assoc.
Qed.

(** *** Reading back what [isoformat] wrote *)

Lemma digits_acc_fmt (w : nat) (n acc : N) :
  digits_acc acc (fmt_digits w n) = Some (acc * 10 ^ N.of_nat w + n mod 10 ^ N.of_nat w).
Proof.
  revert acc. induction w as [| w IH]; intros acc.
  - cbn [fmt_digits digits_acc]. change (10 ^ N.of_nat 0) with 1.
    rewrite N.mod_1_r. f_equal. lia.
  - cbn [fmt_digits digits_acc]. rewrite digit_val_digit_char, IH. f_equal.
    rewrite Nat2N.inj_succ, N.pow_succ_r'.
    rewrite (N.mul_comm 10 (10 ^ N.of_nat w)).
    rewrite (N.Div0.mod_mul_r n (10 ^ N.of_nat w) 10). lia.
Qed.

Lemma int_of_fmt_digits (w : nat) (n : N) :
  n < 10 ^ N.of_nat (S w) -> int_of_digits (fmt_digits (S w) n) = inr n.
Proof.
  intros Hn. unfold int_of_digits.
  rewrite digits_acc_fmt, N.mod_small by exact Hn.
  cbn [fmt_digits]. f_equal.
Qed.

Lemma str_take_fmt (w : nat) (n : N) (rest : string) :
  str_take w (fmt_digits w n ++ rest) = fmt_digits w n.
Proof.
  induction w as [| w IH]; cbn [fmt_digits].
  - rewrite append_nil_l. by destruct rest.
  - rewrite append_cons. cbn [str_take]. by rewrite IH.
Qed.

Lemma str_drop_fmt (w : nat) (n : N) (rest : string) :
  str_drop w (fmt_digits w n ++ rest) = rest.
Proof.
  induction w as [| w IH]; cbn [fmt_digits].
  - rewrite append_nil_l. by destruct rest.
  - rewrite append_cons. cbn [str_drop]. by rewrite IH.
Qed.

Lemma length_fmt_app (w : nat) (n : N) (rest : string) :
  String.length (fmt_digits w n ++ rest) = (w + String.length rest)%nat.
Proof.
  induction w as [| w IH]; cbn [fmt_digits]; [done |].
  rewrite append_cons. cbn [String.length]. by rewrite IH.
Qed.

Lemma long_enough_fmt (w k : nat) (n : N) (rest : string) :
  (k <= w)%nat -> (String.length (fmt_digits w n ++ rest) <? k)%nat = false.
Proof. intros Hk. rewrite length_fmt_app. apply Nat.ltb_ge. lia. Qed.

Lemma head_is_fmt (c : ascii) (w : nat) (n : N) (rest : string) :
  digit_val c = None -> head_is c (fmt_digits (S w) n ++ rest) = false.
Proof.
  intros Hc. cbn [fmt_digits]. rewrite append_cons. cbn [head_is].
  by apply digit_char_eqb.
Qed.

Lemma head_is_same (c : ascii) (s : string) : head_is c (String c s) = true.
Proof. apply Ascii.eqb_refl. Qed.

Lemma str_drop_1 (c : ascii) (s : string) : str_drop 1 (String c s) = s.
Proof. reflexivity. Qed.

(** [_parse_isodate_common] on a date as [isoformat] writes it. *)
Lemma parse_isodate_common_fmt (y m d : N) (rest : string) :
  y < 10000 -> m < 100 -> d < 100 ->
  parse_isodate_common
    (fmt_digits 4 y ++ String "-" (fmt_digits 2 m ++ String "-" (fmt_digits 2 d ++ rest)))
  = inr (y, m, d, rest).
Proof.
  intros Hy Hm Hd. unfold parse_isodate_common.
  rewrite long_enough_fmt, str_take_fmt, int_of_fmt_digits by (done || lia).
  cbn [bind_result]. rewrite (str_drop_fmt 4 y).
  rewrite !head_is_same, !str_drop_1.
  rewrite long_enough_fmt, str_take_fmt, int_of_fmt_digits by (done || lia).
  cbn [bind_result]. rewrite (str_drop_fmt 2 m).
  rewrite !head_is_same, !str_drop_1. cbn [andb negb].
  rewrite long_enough_fmt, str_take_fmt, int_of_fmt_digits by (done || lia).
  cbn [bind_result]. by rewrite (str_drop_fmt 2 d).
Qed.

(** One round of the loop of [_parse_isotime], for a text that is not
    empty. *)
Lemma isotime_loop_step (fuel comp : nat) (has_sep : bool) (c : components) (s : string) :
  s <> "" ->
  isotime_loop (S fuel) comp has_sep c s =
    if at_tz_boundary s then
      bind_result (parse_tzstr s) (fun tz => inr (set_tz tz c, EmptyString))
    else
      let colon := head_is ":" s in
      if (comp =? 2)%nat && has_sep && negb colon
      then inl (ValueError "Inconsistent use of colon separator") else
      let has_sep' := if (comp =? 1)%nat && colon then true else has_sep in
      let s1 := if ((comp =? 1)%nat && colon) || ((comp =? 2)%nat && has_sep)
                then str_drop 1 s else s in
      if (comp <? 3)%nat then
        bind_result (int_of_digits (str_take 2 s1)) (fun v =>
        isotime_loop fuel (S comp) has_sep' (set_component comp v c) (str_drop 2 s1))
      else if (comp =? 3)%nat then
        match match_fraction s1 with
        | None => isotime_loop fuel (S comp) has_sep' c s1
        | Some (ds, rest) =>
            let us_str := str_take 6 ds in
            bind_result (int_of_digits us_str) (fun v =>
            isotime_loop fuel (S comp) has_sep'
              (set_component comp (v * 10 ^ N.of_nat (6 - String.length us_str)) c)
              rest)
        end
      else isotime_loop fuel (S comp) has_sep' c s1.
Proof. intros Hs. destruct s; [done | reflexivity]. Qed.

Lemma fmt_app_nonempty (w : nat) (n : N) (rest : string) :
  fmt_digits (S w) n ++ rest <> "".
Proof. cbn [fmt_digits]. by rewrite append_cons. Qed.

Lemma at_tz_boundary_fmt (w : nat) (n : N) (rest : string) :
  at_tz_boundary (fmt_digits (S w) n ++ rest) = false.
Proof. unfold at_tz_boundary. by rewrite !head_is_fmt. Qed.

(** Two digits of an hour, minute or second, after the colon if there is
    one before them. *)
Lemma isotime_loop_number (fuel comp : nat) (has_sep : bool) (c : components)
    (n : N) (rest : string) :
  (comp < 3)%nat -> n < 100 ->
  (comp = 2%nat -> has_sep = false) ->
  isotime_loop (S fuel) comp has_sep c (fmt_digits 2 n ++ rest) =
    isotime_loop fuel (S comp) has_sep (set_component comp n c) rest.
Proof.
  intros Hcomp Hn Hsep.
  rewrite isotime_loop_step by apply fmt_app_nonempty.
  rewrite at_tz_boundary_fmt. cbv zeta. rewrite head_is_fmt by done.
  rewrite !andb_false_r. cbn [negb orb].
  assert (Hno : ((comp =? 2)%nat && has_sep) = false).
  { destruct (Nat.eqb_spec comp 2) as [H2 | H2]; [by rewrite (Hsep H2) | done]. }
  rewrite Hno. apply Nat.ltb_lt in Hcomp. rewrite Hcomp.
  by rewrite str_take_fmt, int_of_fmt_digits, (str_drop_fmt 2 n) by (done || lia).
Qed.

Lemma isotime_loop_colon_number (fuel comp : nat) (has_sep : bool) (c : components)
    (n : N) (rest : string) :
  n < 100 ->
  (comp = 1%nat \/ (comp = 2%nat /\ has_sep = true)) ->
  isotime_loop (S fuel) comp has_sep c (String ":" (fmt_digits 2 n ++ rest)) =
    isotime_loop fuel (S comp) true (set_component comp n c) rest.
Proof.
  intros Hn Hcomp.
  rewrite isotime_loop_step by done.
  change (at_tz_boundary (String ":" (fmt_digits 2 n ++ rest))) with false.
  cbv zeta. rewrite head_is_same, str_drop_1.
  destruct Hcomp as [-> | [-> ->]]; cbn [Nat.eqb Nat.ltb Nat.leb andb orb negb];
    by rewrite str_take_fmt, int_of_fmt_digits, (str_drop_fmt 2 n) by (done || lia).
Qed.

Lemma isotime_loop_utc (fuel comp : nat) (has_sep : bool) (c : components) :
  isotime_loop (S fuel) comp has_sep c "Z" = inr (set_tz utc c, "").
Proof. reflexivity. Qed.

Lemma span_digits_fmt (w : nat) (n : N) :
  span_digits (fmt_digits w n ++ "Z") = (fmt_digits w n, "Z").
Proof.
  induction w as [| w IH]; [done |].
  cbn [fmt_digits]. rewrite append_cons. cbn [span_digits].
  by rewrite digit_val_digit_char, IH.
Qed.

Lemma match_fraction_dot (s ds rest : string) :
  ds <> "" -> span_digits s = (ds, rest) ->
  match_fraction (String "." s) = Some (ds, rest).
Proof.
  intros Hds Hspan. unfold match_fraction.
  change (Ascii.eqb "." "." || Ascii.eqb "." ",") with true. cbv iota.
  rewrite Hspan. by destruct ds.
Qed.

Lemma length_fmt (w : nat) (n : N) : String.length (fmt_digits w n) = w.
Proof. induction w as [| w IH]; cbn [fmt_digits String.length]; [done | by rewrite IH]. Qed.

Lemma str_take_all (k : nat) (s : string) :
  (String.length s <= k)%nat -> str_take k s = s.
Proof.
  revert k. induction s as [| c s IH]; intros k Hk; [by destruct k |].
  destruct k as [| k]; cbn [String.length] in Hk; [lia |].
  cbn [str_take]. rewrite IH by lia. done.
Qed.

(** The fraction of a second, as [isoformat] writes it, before the [Z]. *)
Lemma isotime_loop_fraction (fuel : nat) (has_sep : bool) (c : components)
    (w : nat) (n : N) :
  (S w <= 6)%nat -> n < 10 ^ N.of_nat (S w) ->
  isotime_loop (S fuel) 3 has_sep c (String "." (fmt_digits (S w) n ++ "Z")) =
    isotime_loop fuel 4 has_sep
      (set_component 3 (n * 10 ^ N.of_nat (6 - S w)) c) "Z".
Proof.
  intros Hw Hn.
  rewrite isotime_loop_step by done.
  change (at_tz_boundary (String "." (fmt_digits (S w) n ++ "Z"))) with false.
  cbv zeta.
  change (head_is ":" (String "." (fmt_digits (S w) n ++ "Z"))) with false.
  cbn [Nat.eqb Nat.ltb Nat.leb andb orb negb].
  rewrite (match_fraction_dot _ (fmt_digits (S w) n) "Z");
    [| done | apply span_digits_fmt].
  rewrite str_take_all by (rewrite length_fmt; lia).
  by rewrite int_of_fmt_digits, length_fmt by done.
Qed.

(** [_parse_isotime] on the four shapes of time that [isoformat] writes,
    each followed by [Z]. *)
Lemma parse_isotime_fmt (h m s : N) :
  h < 24 -> m < 60 -> s < 60 ->
  parse_isotime (fmt_digits 2 h ++ "Z") = inr (utc_components h 0 0 0) /\
  parse_isotime (fmt_digits 2 h ++ String ":" (fmt_digits 2 m ++ "Z"))
    = inr (utc_components h m 0 0) /\
  parse_isotime
    (fmt_digits 2 h ++ String ":" (fmt_digits 2 m ++ String ":" (fmt_digits 2 s ++ "Z")))
    = inr (utc_components h m s 0) /\
  forall w n, (S w <= 6)%nat -> n < 10 ^ N.of_nat (S w) ->
    parse_isotime
      (fmt_digits 2 h ++ String ":" (fmt_digits 2 m ++ String ":"
         (fmt_digits 2 s ++ String "." (fmt_digits (S w) n ++ "Z"))))
    = inr (utc_components h m s (n * 10 ^ N.of_nat (6 - S w))).
Proof.
  intros Hh Hm Hs. unfold parse_isotime.
  assert (H24 : (h =? 24) = false) by (apply N.eqb_neq; lia).
  repeat split; intros;
    rewrite long_enough_fmt by lia;
    rewrite isotime_loop_number by (done || lia);
    rewrite ?isotime_loop_colon_number by (lia || auto);
    rewrite ?isotime_loop_fraction by assumption;
    rewrite isotime_loop_utc; cbn [bind_result set_component set_tz c_hour c_minute
      c_second c_us c_tz]; by rewrite H24.
Qed.

Lemma lit_app (c : ascii) (s : string) : String c "" ++ s = String c s.
Proof. reflexivity. Qed.

Lemma isoparse_fmt (y m d : N) (timestr : string) (c : components) :
  y < 10000 -> m < 100 -> d < 100 ->
  parse_isotime timestr = inr c -> c_hour c <> 24 ->
  all_chars is_ascii timestr = true ->
  isoparse
    (fmt_digits 4 y ++ String "-" (fmt_digits 2 m ++ String "-"
       (fmt_digits 2 d ++ String "T" timestr)))
  = make_datetime y m d (c_hour c) (c_minute c) (c_second c) (c_us c) (c_tz c).
Proof.
  intros Hy Hm Hd Ht H24 Hascii. unfold isoparse, takes_ascii.
  assert (all_chars is_ascii
            (fmt_digits 4 y ++ String "-" (fmt_digits 2 m ++ String "-"
               (fmt_digits 2 d ++ String "T" timestr))) = true) as -> by ascii_text.
  unfold isoparse_bytes.
  rewrite parse_isodate_common_fmt by assumption. cbn [bind_result].
  rewrite Ht. cbn [bind_result].
  apply N.eqb_neq in H24. by rewrite H24.
Qed.

Lemma days_in_month_le (y m : N) : days_in_month y m <= 31.
Proof.
  unfold days_in_month.
  repeat match goal with |- context [if ?b then _ else _] => destruct b end; lia.
Qed.

Lemma valid_datetime_spec (d : datetime) :
  valid_datetime d = true <->
  (1 <= year d <= 9999 /\ 1 <= month d <= 12 /\
   1 <= day d <= days_in_month (year d) (month d) /\
   hour d < 24 /\ minute d < 60 /\ second d < 60 /\ microsecond d < 1000000).
Proof.
  unfold valid_datetime.
  rewrite !andb_true_iff, !N.leb_le, !N.ltb_lt. tauto.
Qed.

(** The range-checked constructor gives back a valid value. *)
Lemma make_datetime_valid (dt : datetime) :
  valid_datetime dt = true ->
  make_datetime (year dt) (month dt) (day dt) (hour dt) (minute dt) (second dt)
    (microsecond dt) (tzinfo dt) = inr dt.
Proof.
  intros Hv. unfold make_datetime. destruct dt. cbn in *. by rewrite Hv.
Qed.

Lemma truncate_to_valid (p : string) (d : datetime) :
  valid_datetime d = true -> valid_datetime (truncate_to p d) = true.
Proof.
  rewrite !valid_datetime_spec. unfold truncate_to. cbn.
  intros (Hy & Hm & Hd & Hh & Hmi & Hs & Hus).
  repeat split; try lia;
    repeat match goal with |- context [if ?b then _ else _] => destruct b end; lia.
Qed.

Local Opaque fmt_digits.

(** Decoding the text of an instant at each precision gives the instant
    cut down to that precision, in UTC. *)
Lemma isoparse_isoformat (now : datetime) (p t : string) :
  valid_datetime now = true ->
  p ∈ supported_timespecs ->
  format_time now p = inr t ->
  isoparse (format_date now ++ "T" ++ t ++ "Z")
    = inr (truncate_to p (replace_tzinfo now (Some utc))).
Proof.
  intros Hv Hp Ht.
  pose proof (truncate_to_valid p (replace_tzinfo now (Some utc)) Hv) as Hvt.
  apply make_datetime_valid in Hvt. rewrite <- Hvt. clear Hvt.
  apply valid_datetime_spec in Hv as (Hy & Hm & Hd & Hh & Hmi & Hs & Hus).
  pose proof (days_in_month_le (year now) (month now)) as Hdim.
  assert (Hy' : year now < 10000) by lia.
  assert (Hm' : month now < 100) by lia.
  assert (Hd' : day now < 100) by lia.
  assert (H24 : forall m s us, c_hour (utc_components (hour now) m s us) <> 24).
  { intros m s us. cbn [c_hour utc_components]. lia. }
  destruct (parse_isotime_fmt (hour now) (minute now) (second now) Hh Hmi Hs)
    as (P1 & P2 & P3 & P4).
  assert (P4ms := P4 2%nat (microsecond now / 1000) ltac:(lia)
                    ltac:(change (10 ^ N.of_nat 3) with 1000; lia)).
  assert (P4us := P4 5%nat (microsecond now) ltac:(lia)
                    ltac:(change (10 ^ N.of_nat 6) with 1000000; lia)).
  clear P4.
  change (10 ^ N.of_nat (6 - 3)) with 1000 in P4ms.
  change (10 ^ N.of_nat (6 - 6)) with 1 in P4us. rewrite N.mul_1_r in P4us.
  apply supported_timespecs_cases in Hp. unfold format_time in Ht.
  destruct Hp as [-> | [-> | [-> | [-> | [-> | ->]]]]];
    cbn [String.eqb Ascii.eqb Bool.eqb without all_chars negb andb] in Ht.
  - destruct (N.eqb_spec (microsecond now) 0) as [Hz | Hz]; injection Ht as <-;
      unfold format_date, hhmmss, hhmm, hh; rewrite ?append_assoc, ?lit_app.
    + rewrite (isoparse_fmt _ _ _ _ _ Hy' Hm' Hd' P3 (H24 _ _ _)) by ascii_text.
      cbn -[make_datetime]. by rewrite Hz.
    + by rewrite (isoparse_fmt _ _ _ _ _ Hy' Hm' Hd' P4us (H24 _ _ _)) by ascii_text.
  - injection Ht as <-. unfold format_date, hh. rewrite ?append_assoc, ?lit_app.
    by rewrite (isoparse_fmt _ _ _ _ _ Hy' Hm' Hd' P1 (H24 _ _ _)) by ascii_text.
  - injection Ht as <-. unfold format_date, hhmm, hh. rewrite ?append_assoc, ?lit_app.
    by rewrite (isoparse_fmt _ _ _ _ _ Hy' Hm' Hd' P2 (H24 _ _ _)) by ascii_text.
  - injection Ht as <-. unfold format_date, hhmmss, hhmm, hh.
    rewrite ?append_assoc, ?lit_app.
    by rewrite (isoparse_fmt _ _ _ _ _ Hy' Hm' Hd' P3 (H24 _ _ _)) by ascii_text.
  - injection Ht as <-. unfold format_date, hhmmss, hhmm, hh.
    rewrite ?append_assoc, ?lit_app.
    by rewrite (isoparse_fmt _ _ _ _ _ Hy' Hm' Hd' P4ms (H24 _ _ _)) by ascii_text.
  - injection Ht as <-. unfold format_date, hhmmss, hhmm, hh.
    rewrite ?append_assoc, ?lit_app.
    by rewrite (isoparse_fmt _ _ _ _ _ Hy' Hm' Hd' P4us (H24 _ _ _)) by ascii_text.
Qed.

Local Transparent fmt_digits.

(** The time of day that [isoformat] writes, spelled out by precision. *)
Lemma format_time_listed (now : datetime) (p : string) :
  p ∈ supported_timespecs ->
  format_time now p =
    inr (let hms := fmt_digits 2 (hour now) ++ ":" ++ fmt_digits 2 (minute now)
                    ++ ":" ++ fmt_digits 2 (second now) in
         if String.eqb p "hours" then fmt_digits 2 (hour now)
         else if String.eqb p "minutes"
         then fmt_digits 2 (hour now) ++ ":" ++ fmt_digits 2 (minute now)
         else if String.eqb p "seconds" then hms
         else if String.eqb p "milliseconds"
         then hms ++ "." ++ fmt_digits 3 (microsecond now / 1000)
         else if String.eqb p "microseconds"
         then hms ++ "." ++ fmt_digits 6 (microsecond now)
         else if microsecond now =? 0 then hms
         else hms ++ "." ++ fmt_digits 6 (microsecond now)).
Proof.
  intros Hp%supported_timespecs_cases. unfold format_time, hhmmss, hhmm, hh.
  destruct Hp as [-> | [-> | [-> | [-> | [-> | ->]]]]];
    cbn [String.eqb Ascii.eqb Bool.eqb without all_chars negb andb];
    try destruct (microsecond now =? 0); by rewrite ?append_assoc.
Qed.

(** The text depends on the reading only down to the precision. *)
Lemma format_time_truncate_to (now : datetime) (p : string) :
  p ∈ supported_timespecs ->
  format_time (truncate_to p now) p = format_time now p.
Proof.
  intros Hp%supported_timespecs_cases. unfold format_time, hhmmss, hhmm, hh.
  destruct Hp as [-> | [-> | [-> | [-> | [-> | ->]]]]];
    cbn [String.eqb Ascii.eqb Bool.eqb without all_chars negb andb truncate_to orb
         hour minute second microsecond];
    try reflexivity.
  by rewrite N.div_mul.
Qed.

(** C7: for each listed precision, whatever the clock reads,
    [timestamp_utc_iso] returns the date as [YYYY-MM-DD], a [T], the time
    of day written down to that precision (hours; hours and minutes; with
    seconds; with the milliseconds or the microseconds cut, not rounded;
    for "auto" the seconds, with the microseconds unless they are zero)
    and a final [Z].  The text does not contain [+00:00]; read back as an
    ISO 8601 text, the text of a valid reading is that reading in UTC cut
    down to the precision; the text is also the text of the reading so
    cut; leaving the argument out is asking for seconds. *)
Theorem timestamp_utc_iso_format (now : datetime) (p : string) :
  p ∈ supported_timespecs ->
  let date := fmt_digits 4 (year now) ++ "-" ++ fmt_digits 2 (month now)
              ++ "-" ++ fmt_digits 2 (day now) in
  let hms := fmt_digits 2 (hour now) ++ ":" ++ fmt_digits 2 (minute now)
             ++ ":" ++ fmt_digits 2 (second now) in
  let time :=
    if String.eqb p "hours" then fmt_digits 2 (hour now)
    else if String.eqb p "minutes"
    then fmt_digits 2 (hour now) ++ ":" ++ fmt_digits 2 (minute now)
    else if String.eqb p "seconds" then hms
    else if String.eqb p "milliseconds"
    then hms ++ "." ++ fmt_digits 3 (microsecond now / 1000)
    else if String.eqb p "microseconds"
    then hms ++ "." ++ fmt_digits 6 (microsecond now)
    else if microsecond now =? 0 then hms
    else hms ++ "." ++ fmt_digits 6 (microsecond now) in
  let text := date ++ "T" ++ time ++ "Z" in
  timestamp_utc_iso (Some p) now = inr text /\
  contains "+00:00" text = false /\
  (valid_datetime now = true ->
   isoparse text = inr (truncate_to p (replace_tzinfo now (Some utc)))) /\
  timestamp_utc_iso (Some p) (truncate_to p now) = inr text /\
  timestamp_utc_iso None now = timestamp_utc_iso (Some "seconds") now.
Proof.
  intros Hp date hms time text.
  destruct (isoformat_body now p Hp) as (t & Ht & Hplus & _).
  assert (Htime : t = time).
  { rewrite (format_time_listed now p Hp) in Ht. by apply (inj inr) in Ht. }
  assert (Htext : text = format_date now ++ "T" ++ t ++ "Z") by (by rewrite Htime).
  rewrite Htext. clear Htext Htime date hms time text.
  split; [by apply timestamp_utc_iso_eq |].
  split.
  { apply contains_absent. rewrite <- !append_assoc, without_app.
    by rewrite append_assoc, Hplus. }
  split; [intros Hv; by apply isoparse_isoformat |].
  split; [| reflexivity].
  change (format_date now) with (format_date (truncate_to p now)).
  apply timestamp_utc_iso_eq.
  - by rewrite format_time_truncate_to.
  - exact Hplus.
Qed.

Lemma timestamp_utc_iso_format_witness :
  "milliseconds" ∈ supported_timespecs /\
  timestamp_utc_iso (Some "milliseconds")
    {| year := 2020; month := 3; day := 7; hour := 9; minute := 5; second := 42;
       microsecond := 1234; tzinfo := None |}
  = inr "2020-03-07T09:05:42.001Z".
Proof.
  assert (Hp : "milliseconds" ∈ supported_timespecs).
  { unfold supported_timespecs. rewrite !elem_of_cons. tauto. }
  split; [exact Hp |].
  exact (proj1 (timestamp_utc_iso_format
                  {| year := 2020; month := 3; day := 7; hour := 9; minute := 5;
                     second := 42; microsecond := 1234; tzinfo := None |}
                  "milliseconds" Hp)).
Defined.

(** C8: for every listed precision and every valid clock reading,
    encoding succeeds and decoding the text succeeds, giving the instant
    of the encoding, in UTC, cut down to the precision. *)
Theorem datetime_from_iso_timestamp_utc_iso (now : datetime) (p : string) :
  valid_datetime now = true ->
  p ∈ supported_timespecs ->
  exists s,
    timestamp_utc_iso (Some p) now = inr s /\
    datetime_from_iso isoparse s
      = inr (truncate_to p (replace_tzinfo now (Some utc))).
Proof.
  intros Hv Hp.
  destruct (isoformat_body now p Hp) as (t & Ht & Hplus & Hblank).
  exists (format_date now ++ "T" ++ t ++ "Z").
  split; [by apply timestamp_utc_iso_eq |].
  unfold datetime_from_iso, str_replace.
  rewrite replace_absent; [by apply isoparse_isoformat |].
  rewrite <- !append_assoc, without_app, append_assoc, Hblank. reflexivity.
Qed.

Lemma datetime_from_iso_timestamp_utc_iso_witness :
  valid_datetime
    {| year := 2020; month := 3; day := 7; hour := 9; minute := 5; second := 42;
       microsecond := 1234; tzinfo := None |} = true /\
  "milliseconds" ∈ supported_timespecs /\
  exists s,
    timestamp_utc_iso (Some "milliseconds")
      {| year := 2020; month := 3; day := 7; hour := 9; minute := 5; second := 42;
         microsecond := 1234; tzinfo := None |} = inr s /\
    datetime_from_iso isoparse s
      = inr {| year := 2020; month := 3; day := 7; hour := 9; minute := 5;
               second := 42; microsecond := 1000; tzinfo := Some utc |}.
Proof.
  assert (Hp : "milliseconds" ∈ supported_timespecs).
  { unfold supported_timespecs. rewrite !elem_of_cons. tauto. }
  split; [reflexivity |]. split; [exact Hp |].
  exact (datetime_from_iso_timestamp_utc_iso
           {| year := 2020; month := 3; day := 7; hour := 9; minute := 5;
              second := 42; microsecond := 1234; tzinfo := None |}
           "milliseconds" eq_refl Hp).
Defined.

(** A blank left after the seconds is not consumed, and the parser
    refuses the text. *)
Lemma isoparse_trailing_blank (d : datetime) :
  valid_datetime d = true ->
  isoparse (format_date d ++ "T" ++ hhmmss d ++ " Z")
    = inl (ValueError "Unused components in ISO string").
Proof.
  intros Hv.
  apply valid_datetime_spec in Hv as (Hy & Hm & Hd & Hh & Hmi & Hs & Hus).
  pose proof (days_in_month_le (year d) (month d)) as Hdim.
  unfold format_date, hhmmss, hhmm, hh. rewrite ?append_assoc, ?lit_app.
  unfold isoparse, takes_ascii.
  match goal with
  | |- context [all_chars is_ascii ?x] =>
      assert (all_chars is_ascii x = true) as -> by ascii_text
  end.
  unfold isoparse_bytes. rewrite parse_isodate_common_fmt by lia.
  cbn [bind_result]. unfold parse_isotime.
  rewrite long_enough_fmt by lia.
  rewrite isotime_loop_number by (done || lia).
  rewrite !isotime_loop_colon_number by (lia || auto).
  reflexivity.
Qed.

(** * Further properties *)

(** ** More on the timestamps *)

Lemma length_app (s1 s2 : string) :
  String.length (s1 ++ s2) = (String.length s1 + String.length s2)%nat.
Proof.
  induction s1 as [| c s1 IH]; [done |].
  rewrite append_cons. cbn [String.length]. by rewrite IH.
Qed.

(** Every text has no blank, or a first blank. *)
Lemma first_blank (s : string) :
  without " " s = true \/
  exists a b, s = a ++ " " ++ b /\ without " " a = true.
Proof.
  induction s as [| c s IH]; [by left |].
  destruct (Ascii.eqb_spec c " ") as [-> | Hc].
  - right. by exists "", s.
  - destruct IH as [Hs | (a & b & -> & Ha)].
    + left. unfold without in *. cbn [all_chars].
      apply Ascii.eqb_neq in Hc. by rewrite Hc, Hs.
    + right. exists (String c a), b. split; [done |].
      unfold without in *. cbn [all_chars].
      apply Ascii.eqb_neq in Hc. by rewrite Hc, Ha.
Qed.

(** X1: What [datetime_from_iso] hands to the parser, for any text: the text
    itself when it has no blank, otherwise the text with its first blank,
    and no other character, replaced by [T]; the length never changes. *)
Theorem datetime_from_iso_normalization (parse : string -> result datetime) (s : string) :
  ((without " " s = true /\ datetime_from_iso parse s = parse s) \/
   (exists a b, s = a ++ " " ++ b /\ without " " a = true /\
                datetime_from_iso parse s = parse (a ++ "T" ++ b))) /\
  String.length (str_replace " " "T" (Some 1%nat) s) = String.length s.
Proof.
  destruct (first_blank s) as [Hs | (a & b & -> & Ha)].
  - assert (Hsame : str_replace " " "T" (Some 1%nat) s = s)
      by (by apply replace_absent).
    split; [left; split; [done |] |]; unfold datetime_from_iso; by rewrite Hsame.
  - split.
    + right. exists a, b. repeat split; [done |].
      unfold datetime_from_iso. by rewrite replace_first_space.
    + rewrite replace_first_space by done. by rewrite !length_app.
Qed.

(** X2: [timestamp_utc_iso] succeeds on the six precisions of its docstring
    and on no other: any other [timespec] raises [ValueError], whatever
    the clock reads; its message is "embedded null character" for a
    [timespec] with a NUL character in it and "Unknown timespec value"
    for the rest. *)
Theorem timestamp_utc_iso_timespecs (now : datetime) (p : string) :
  if bool_decide (p ∈ supported_timespecs)
  then exists s, timestamp_utc_iso (Some p) now = inr s
  else timestamp_utc_iso (Some p) now =
         inl (ValueError (if without "000" p then "Unknown timespec value"
                          else "embedded null character")).
Proof.
  case_bool_decide as Hp.
  - destruct (isoformat_body now p Hp) as (t & Ht & Hplus & _).
    eexists. by apply timestamp_utc_iso_eq.
  - unfold supported_timespecs in Hp. rewrite !elem_of_cons, elem_of_nil in Hp.
    unfold timestamp_utc_iso, isoformat.
    change (format_time (replace_tzinfo now (Some utc)) (default "seconds" (Some p)))
      with (format_time now p).
    unfold format_time.
    destruct (without "000" p); [| reflexivity]. cbn [negb].
    repeat match goal with
           | |- context [String.eqb p ?q] =>
               destruct (String.eqb_spec p q) as [-> | ?]; [exfalso; tauto |]
           end.
    reflexivity.
Qed.

(** X3: The text of a timestamp has a fixed length at each precision: 14
    characters for hours, 17 for minutes, 20 for seconds, 24 for
    milliseconds, 27 for microseconds; "auto" gives 20 or 27, as the
    microseconds are zero or not. *)
Theorem timestamp_utc_iso_length (now : datetime) (p s : string) :
  p ∈ supported_timespecs ->
  timestamp_utc_iso (Some p) now = inr s ->
  String.length s =
    if String.eqb p "hours" then 14%nat
    else if String.eqb p "minutes" then 17%nat
    else if String.eqb p "seconds" then 20%nat
    else if String.eqb p "milliseconds" then 24%nat
    else if String.eqb p "microseconds" then 27%nat
    else if microsecond now =? 0 then 20%nat else 27%nat.
Proof.
  intros Hp Hs.
  destruct (isoformat_body now p Hp) as (t & Ht & Hplus & _).
  rewrite (timestamp_utc_iso_eq now p t Ht Hplus) in Hs. injection Hs as <-.
  apply supported_timespecs_cases in Hp. unfold format_time in Ht.
  destruct Hp as [-> | [-> | [-> | [-> | [-> | ->]]]]];
    cbn [String.eqb Ascii.eqb Bool.eqb without all_chars negb andb] in Ht |- *;
    try destruct (microsecond now =? 0);
    injection Ht as <-;
    unfold format_date, hhmmss, hhmm, hh;
    rewrite !length_app, !length_fmt; reflexivity.
Qed.

Lemma timestamp_utc_iso_length_witness :
  "milliseconds" ∈ supported_timespecs /\
  timestamp_utc_iso (Some "milliseconds")
    {| year := 2020; month := 3; day := 7; hour := 9; minute := 5; second := 42;
       microsecond := 1234; tzinfo := None |} = inr "2020-03-07T09:05:42.001Z" /\
  String.length "2020-03-07T09:05:42.001Z" = 24%nat.
Proof.
  assert (Hp : "milliseconds" ∈ supported_timespecs).
  { unfold supported_timespecs. rewrite !elem_of_cons. tauto. }
  split; [exact Hp |]. split; [reflexivity |].
  exact (timestamp_utc_iso_length
           {| year := 2020; month := 3; day := 7; hour := 9; minute := 5;
              second := 42; microsecond := 1234; tzinfo := None |}
           "milliseconds" "2020-03-07T09:05:42.001Z" Hp eq_refl).
Defined.

(** X4: Two valid clock readings that give the same text at a precision are
    the same instant down to that precision; at "microseconds" or "auto"
    they are the same reading. *)
Theorem timestamp_utc_iso_injective (now1 now2 : datetime) (p s : string) :
  valid_datetime now1 = true -> valid_datetime now2 = true ->
  p ∈ supported_timespecs ->
  timestamp_utc_iso (Some p) now1 = inr s ->
  timestamp_utc_iso (Some p) now2 = inr s ->
  truncate_to p (replace_tzinfo now1 (Some utc))
    = truncate_to p (replace_tzinfo now2 (Some utc)) /\
  (p = "microseconds" \/ p = "auto" ->
   replace_tzinfo now1 None = replace_tzinfo now2 None).
Proof.
  intros Hv1 Hv2 Hp Hs1 Hs2.
  destruct (isoformat_body now1 p Hp) as (t1 & Ht1 & Hplus1 & _).
  destruct (isoformat_body now2 p Hp) as (t2 & Ht2 & Hplus2 & _).
  rewrite (timestamp_utc_iso_eq now1 p t1 Ht1 Hplus1) in Hs1.
  rewrite (timestamp_utc_iso_eq now2 p t2 Ht2 Hplus2) in Hs2.
  apply (inj inr) in Hs1 as <-. apply (inj inr) in Hs2.
  pose proof (isoparse_isoformat now1 p t1 Hv1 Hp Ht1) as Hd1.
  pose proof (isoparse_isoformat now2 p t2 Hv2 Hp Ht2) as Hd2.
  rewrite Hs2, Hd1 in Hd2. apply (inj inr) in Hd2 as Heq.
  split; [exact Heq |].
  intros [-> | ->]; unfold truncate_to, replace_tzinfo in *; cbn in Heq;
    injection Heq as Hy Hmo Hd Hh Hmi Hs Hus; by rewrite Hy, Hmo, Hd, Hh, Hmi, Hs, Hus.
Qed.

Lemma timestamp_utc_iso_injective_witness :
  let now :=
    {| year := 2020; month := 3; day := 7; hour := 9; minute := 5; second := 42;
       microsecond := 1234; tzinfo := None |} in
  let later :=
    {| year := 2020; month := 3; day := 7; hour := 9; minute := 5; second := 42;
       microsecond := 1999; tzinfo := None |} in
  valid_datetime now = true /\ valid_datetime later = true /\
  "milliseconds" ∈ supported_timespecs /\
  timestamp_utc_iso (Some "milliseconds") now = inr "2020-03-07T09:05:42.001Z" /\
  timestamp_utc_iso (Some "milliseconds") later = inr "2020-03-07T09:05:42.001Z" /\
  truncate_to "milliseconds" (replace_tzinfo now (Some utc))
    = truncate_to "milliseconds" (replace_tzinfo later (Some utc)).
Proof.
  intros now later.
  assert (Hp : "milliseconds" ∈ supported_timespecs).
  { unfold supported_timespecs. rewrite !elem_of_cons. tauto. }
  repeat (split; [first [reflexivity | exact Hp] |]).
  exact (proj1 (timestamp_utc_iso_injective now later "milliseconds"
                  "2020-03-07T09:05:42.001Z" eq_refl eq_refl Hp eq_refl eq_refl)).
Defined.

(** ** More on the gate *)

Section AccessGateMore.
Local Open Scope list_scope.
Context {Handler Message Responder Thread Result World : Type}.
Variable thread_of : Message -> Thread.
Variable host_send_reply :
  Responder -> @ProblemReport Thread -> World -> result unit * World.

Lemma has_role_dec (role : string) (context : @RequestContext Message) :
  (has_role role context /\ not_authorized role context = false) \/
  (~ has_role role context /\ not_authorized role context = true).
Proof.
  destruct (not_authorized role context) eqn:Hna.
  - right. split; [| done]. intros Hr%authorized_spec. congruence.
  - left. split; [by apply authorized_spec | done].
Qed.

(** One invocation of a gate, from an empty trace: the counts of both
    paths, by the test. *)
Lemma gate_counts (role : string)
    (func : @handler_fn Handler Message Responder Result World)
    handler (context : @RequestContext Message) responder w :
  let tr := (require_role thread_of host_send_reply role func
               handler context responder (w, [])).2.2 in
  count_invoked tr = (if not_authorized role context then 0 else 1)%nat /\
  count_sent tr = (if not_authorized role context then 1 else 0)%nat.
Proof.
  intros tr. subst tr. destruct (not_authorized role context) eqn:Hna.
  - rewrite (gate_reject _ _ _ _ _ _ _ _ _ Hna). by destruct (host_send_reply _ _ w).
  - rewrite (gate_forward _ _ _ _ _ _ _ _ _ Hna).
    by destruct (func handler context responder w).
Qed.

(** X5: [admin_only]: the wrapped function runs exactly when the connection is
    recorded with the role "admin" (the comparison is exact), and a reply
    is sent exactly when it is not. *)
Theorem admin_only_runs_iff
    (func : @handler_fn Handler Message Responder Result World)
    handler (context : @RequestContext Message) responder w :
  let tr := (admin_only thread_of host_send_reply func
               handler context responder (w, [])).2.2 in
  (count_invoked tr = 1%nat <-> has_role "admin" context) /\
  (count_sent tr = 1%nat <-> ~ has_role "admin" context).
Proof.
  intros tr. subst tr. unfold admin_only.
  destruct (gate_counts "admin" func handler context responder w) as [Hi Hs].
  rewrite Hi, Hs.
  destruct (has_role_dec "admin" context) as [[Hr ->] | [Hr ->]];
    split; split; try done; intros; lia.
Qed.

(** X6: Two gates, one on top of the other, around [func]: every invocation
    either calls [func] once and sends nothing, or sends one reply (from
    the outer or from the inner gate) and does not call [func]; [func] is
    called exactly when the connection has both roles, so never when the
    two roles differ. *)
Theorem require_roles_one_path (role1 role2 : string)
    (func : @handler_fn Handler Message Responder Result World)
    handler (context : @RequestContext Message) responder w :
  let run := require_roles thread_of host_send_reply role1 role2 func
               handler context responder ((w, []), []) in
  let calls := count_invoked run.2.1.2 in
  let sends := (count_sent run.2.2 + count_sent run.2.1.2)%nat in
  (calls + sends = 1)%nat /\
  (calls = 1%nat <-> has_role role1 context /\ has_role role2 context) /\
  (role1 <> role2 -> calls = 0%nat).
Proof.
  intros run calls sends.
  assert (Hcounts :
    calls = (if not_authorized role1 context then 0
             else if not_authorized role2 context then 0 else 1)%nat /\
    sends = (if not_authorized role1 context then 1
             else if not_authorized role2 context then 1 else 0)%nat).
  { subst calls sends run. unfold require_roles.
    destruct (not_authorized role1 context) eqn:Hna1.
    - rewrite (gate_reject _ _ _ _ _ _ _ _ _ Hna1). unfold lift_send_reply.
      by destruct (host_send_reply _ _ w).
    - rewrite (gate_forward _ _ _ _ _ _ _ _ _ Hna1).
      destruct (gate_counts role2 func handler context responder w) as [Hi Hs].
      destruct (require_role thread_of host_send_reply role2 func
                  handler context responder (w, [])) as [r [w' tr]].
      cbn in Hi, Hs |- *. rewrite Hi, Hs.
      by destruct (not_authorized role2 context). }
  destruct Hcounts as [-> ->].
  assert (Hboth : role1 <> role2 ->
                  has_role role1 context -> has_role role2 context -> False).
  { intros Hne (rec1 & Hc1 & Hr1) (rec2 & Hc2 & Hr2). congruence. }
  destruct (has_role_dec role1 context) as [[Hr1 Hn1] | [Hr1 Hn1]];
    destruct (has_role_dec role2 context) as [[Hr2 Hn2] | [Hr2 Hn2]];
    rewrite ?Hn1, ?Hn2;
    repeat split; try done; try tauto; try lia; intros; exfalso; eauto.
Qed.

End AccessGateMore.

(** ** [PassHandler] *)

(** [msg % arg] for a format that ends in its only [%s]: the argument is
    put in as it is, also when it contains a percent sign itself. *)
Lemma percent_s_suffix (body arg : string) :
  without "%" body = true -> percent_s (body ++ "%s") arg = body ++ arg.
Proof.
  intros Hb. unfold percent_s, str_replace.
  change (body ++ "%s") with (body ++ String "%" ("s" ++ "")).
  rewrite (replace_after "%" "s" arg (Some 1%nat) body "" ltac:(done) Hb).
  change (pred <$> Some 1%nat) with (Some O).
  by rewrite replace_exhausted, append_empty_r.
Qed.

(** X7: [PassHandler.handle] returns [None] without raising; when the logger
    is enabled for [DEBUG] it has handled one more message, "Pass: Not
    handling message of type " followed by the type of the message,
    otherwise the logger is as before. *)
Theorem handle_logs_message_type {Handler Message Responder : Type}
    (message_type_of : Message -> string) (self : Handler)
    (context : @RequestContext Message) (responder : Responder) (logger : Logger) :
  let run := handle message_type_of self context responder logger in
  run.1 = inr tt /\
  debug_enabled run.2 = debug_enabled logger /\
  handled run.2 =
    if debug_enabled logger
    then (handled logger ++
          [("Pass: Not handling message of type "
              ++ message_type_of (message context))%string])%list
    else handled logger.
Proof.
  cbv zeta. unfold handle, logger_debug. cbn [fst snd].
  destruct (debug_enabled logger) eqn:He; cbn [debug_enabled handled];
    rewrite ?He; repeat split.
  change "Pass: Not handling message of type %s"
    with ("Pass: Not handling message of type " ++ "%s").
  by rewrite percent_s_suffix.
Qed.

(** ** More on the factory *)

Section FactoryMore.
Context {Field Value : Type}.
Variable py_none : Value.
Variable str_isidentifier : string -> bool.
Variable base_declared_fields : gmap string Field.

Lemma build_declared_lookup name handler msg_type (fields : gmap string Field)
    (init : option (@initializer Value)) caller created M Sc created' (k : string) :
  generate_model_schema str_isidentifier base_declared_fields name handler msg_type
    (ArgDict fields) init caller created = (inr (M, Sc), created') ->
  _declared_fields Sc !! k =
    match fields !! k with
    | Some field => Some field
    | None => base_declared_fields !! k
    end.
Proof.
  intros Hb. destruct (build_inv _ _ _ _ _ _ _ _ _ _ _ _ Hb) as (d & Hshape & Hok).
  rewrite (build_checked _ _ _ _ _ _ d _ _ _ Hshape Hok) in Hb. cbv zeta in Hb.
  destruct Hshape as [Hs | Hs]; [| done]. simplify_eq. cbn.
  rewrite lookup_union. by destruct (d !! k), (base_declared_fields !! k).
Qed.

(** X8: Field by field, the declared fields of a generated schema: a field of
    the descriptor, also where the base schema declares one of the same
    name, and otherwise the inherited field. *)
Theorem declared_fields_lookup name handler msg_type (fields : gmap string Field)
    (init : option (@initializer Value)) caller created M Sc created' (k : string) :
  generate_model_schema str_isidentifier base_declared_fields name handler msg_type
    (ArgDict fields) init caller created = (inr (M, Sc), created') ->
  _declared_fields Sc !! k =
    match fields !! k with
    | Some field => Some field
    | None => base_declared_fields !! k
    end.
Proof. apply build_declared_lookup. Qed.

Lemma check_slots_error (l : list string) (e : exn) :
  check_slots str_isidentifier l = inl e ->
  exists msg, e = TypeError msg \/ e = ValueError msg.
Proof.
  unfold check_slots.
  destruct (valid_slot_names str_isidentifier l) as [e' | []] eqn:Hv; cbn [bind_result].
  - intros [= <-]. revert Hv.
    induction l as [| slot l IH]; cbn [valid_slot_names]; [done |].
    destruct (negb (str_isidentifier slot)); [intros [= <-]; eauto |].
    destruct (String.eqb slot "__dict__"); [intros [= <-]; eauto |].
    destruct (String.eqb slot "__weakref__"); [intros [= <-]; eauto | exact IH].
  - clear Hv. induction l as [| slot l IH]; cbn [no_slot_clash]; [done |].
    case_bool_decide; [intros [= <-]; eauto | exact IH].
Qed.

(** X9: The schema of an earlier build cannot be built from when the base
    schema declares [_type], as the envelope's schema does: the earlier
    schema inherits that field, the factory makes it a slot, and the class
    statement refuses a slot named like the [_type] property of the body.
    The factory raises and no class is created. *)
Theorem generate_model_schema_from_schema
    name1 handler1 msg_type1 (fields : gmap string Field)
    (init1 : option (@initializer Value)) caller1 created M1 S1 created1
    name2 handler2 msg_type2 (init2 : option (@initializer Value)) caller2 :
  is_Some (base_declared_fields !! "_type") ->
  generate_model_schema str_isidentifier base_declared_fields name1 handler1 msg_type1
    (ArgDict fields) init1 caller1 created = (inr (M1, S1), created1) ->
  exists e,
    generate_model_schema str_isidentifier base_declared_fields name2 handler2 msg_type2
      (ArgObject (Some (_declared_fields S1))) init2 caller2 created1
    = (inl e, created1).
Proof.
  intros Htype Hb.
  assert (Hin : "_type" ∈ keys (_declared_fields S1)).
  { apply elem_of_keys, elem_of_dom.
    rewrite (build_declared_lookup _ _ _ _ _ _ _ _ _ _ "_type" Hb).
    destruct (fields !! "_type"); [by eexists | exact Htype]. }
  unfold generate_model_schema.
  destruct (check_slots str_isidentifier (keys (_declared_fields S1)))
    as [e | []] eqn:Hc; [by exists e |].
  exfalso. apply check_slots_ok in Hc. rewrite Forall_forall in Hc.
  specialize (Hc "_type" Hin). unfold slot_name_ok in Hc.
  rewrite !andb_true_iff, !negb_true_iff, bool_decide_eq_false in Hc.
  destruct Hc as [_ Hc]. apply Hc. unfold class_body_names.
  rewrite !elem_of_cons. tauto.
Qed.


(** X10: The loop of [generic_init] gives the same attributes and the same
    remaining keyword arguments in whatever order the slots come. *)
Theorem generic_init_slot_order (slots1 slots2 : list string)
    (instance : @Instance Value) (kwargs : gmap string Value) :
  NoDup slots1 -> slots1 ≡ₚ slots2 ->
  foldl (init_slot py_none) (instance, kwargs) slots1
    = foldl (init_slot py_none) (instance, kwargs) slots2.
Proof using py_none.
  clear str_isidentifier base_declared_fields.
  intros Hnd1 Hperm.
  assert (Hnd2 : NoDup slots2) by (by rewrite <- Hperm).
  destruct (init_slots_run py_none (fun _ => true) (fun i _ => inr i) slots1 instance kwargs Hnd1)
    as (Hc1 & Ha1 & Hk1).
  destruct (init_slots_run py_none (fun _ => true) (fun i _ => inr i) slots2 instance kwargs Hnd2)
    as (Hc2 & Ha2 & Hk2).
  destruct (foldl _ _ slots1) as [[c1 a1] k1].
  destruct (foldl _ _ slots2) as [[c2 a2] k2].
  cbn in *. f_equal; [f_equal; [congruence |] |]; apply map_eq; intros k.
  - rewrite Ha1, Ha2. by repeat case_decide; try (rewrite Hperm in *; tauto).
  - rewrite Hk1, Hk2. by repeat case_decide; try (rewrite Hperm in *; tauto).
Qed.

End FactoryMore.

(** ** The offset form of a timestamp

    [isoformat] writes the offset of UTC as [+00:00] and
    [timestamp_utc_iso] turns it into [Z]; the parser reads both. *)

Section OffsetTail.
Variable tail : string.
Variable zone : option timezone.
Hypothesis tail_loop : forall fuel comp has_sep c,
  isotime_loop (S fuel) comp has_sep c tail = inr (with_zone zone c, "").
Hypothesis tail_span : forall w n,
  span_digits (fmt_digits w n ++ tail) = (fmt_digits w n, tail).
Hypothesis tail_ascii : all_chars is_ascii tail = true.

Lemma isotime_loop_fraction_tail (fuel : nat) (has_sep : bool) (c : components)
    (w : nat) (n : N) :
  (S w <= 6)%nat -> n < 10 ^ N.of_nat (S w) ->
  isotime_loop (S fuel) 3 has_sep c (String "." (fmt_digits (S w) n ++ tail)) =
    isotime_loop fuel 4 has_sep
      (set_component 3 (n * 10 ^ N.of_nat (6 - S w)) c) tail.
Proof.
  intros Hw Hn.
  rewrite isotime_loop_step by done.
  change (at_tz_boundary (String "." (fmt_digits (S w) n ++ tail))) with false.
  cbv zeta.
  change (head_is ":" (String "." (fmt_digits (S w) n ++ tail))) with false.
  cbn [Nat.eqb Nat.ltb Nat.leb andb orb negb].
  rewrite (match_fraction_dot _ (fmt_digits (S w) n) tail);
    [| done | apply tail_span].
  rewrite str_take_all by (rewrite length_fmt; lia).
  by rewrite int_of_fmt_digits, length_fmt by done.
Qed.

Lemma parse_isotime_tail (h m s : N) :
  h < 24 -> m < 60 -> s < 60 ->
  parse_isotime (fmt_digits 2 h ++ tail) = inr (zone_components zone h 0 0 0) /\
  parse_isotime (fmt_digits 2 h ++ String ":" (fmt_digits 2 m ++ tail))
    = inr (zone_components zone h m 0 0) /\
  parse_isotime
    (fmt_digits 2 h ++ String ":" (fmt_digits 2 m ++ String ":" (fmt_digits 2 s ++ tail)))
    = inr (zone_components zone h m s 0) /\
  forall w n, (S w <= 6)%nat -> n < 10 ^ N.of_nat (S w) ->
    parse_isotime
      (fmt_digits 2 h ++ String ":" (fmt_digits 2 m ++ String ":"
         (fmt_digits 2 s ++ String "." (fmt_digits (S w) n ++ tail))))
    = inr (zone_components zone h m s (n * 10 ^ N.of_nat (6 - S w))).
Proof.
  intros Hh Hm Hs. unfold parse_isotime, zone_components.
  assert (H24 : (h =? 24) = false) by (apply N.eqb_neq; lia).
  repeat split; intros;
    rewrite long_enough_fmt by lia;
    rewrite isotime_loop_number by (done || lia);
    rewrite ?isotime_loop_colon_number by (lia || auto);
    rewrite ?isotime_loop_fraction_tail by assumption;
    rewrite tail_loop; unfold with_zone; destruct zone;
    cbn [bind_result set_component set_tz c_hour c_minute
      c_second c_us c_tz]; by rewrite H24.
Qed.

Local Opaque fmt_digits.

Lemma isoparse_isoformat_tail (now : datetime) (p t : string) :
  valid_datetime now = true ->
  p ∈ supported_timespecs ->
  format_time now p = inr t ->
  isoparse (format_date now ++ "T" ++ t ++ tail)
    = inr (truncate_to p (replace_tzinfo now zone)).
Proof.
  intros Hv Hp Ht.
  pose proof (truncate_to_valid p (replace_tzinfo now zone) Hv) as Hvt.
  apply make_datetime_valid in Hvt. rewrite <- Hvt. clear Hvt.
  apply valid_datetime_spec in Hv as (Hy & Hm & Hd & Hh & Hmi & Hs & Hus).
  pose proof (days_in_month_le (year now) (month now)) as Hdim.
  assert (Hy' : year now < 10000) by lia.
  assert (Hm' : month now < 100) by lia.
  assert (Hd' : day now < 100) by lia.
  assert (H24 : forall m s us, c_hour (zone_components zone (hour now) m s us) <> 24).
  { intros m s us. cbn [c_hour zone_components]. lia. }
  destruct (parse_isotime_tail (hour now) (minute now) (second now) Hh Hmi Hs)
    as (P1 & P2 & P3 & P4).
  assert (P4ms := P4 2%nat (microsecond now / 1000) ltac:(lia)
                    ltac:(change (10 ^ N.of_nat 3) with 1000; lia)).
  assert (P4us := P4 5%nat (microsecond now) ltac:(lia)
                    ltac:(change (10 ^ N.of_nat 6) with 1000000; lia)).
  clear P4.
  change (10 ^ N.of_nat (6 - 3)) with 1000 in P4ms.
  change (10 ^ N.of_nat (6 - 6)) with 1 in P4us. rewrite N.mul_1_r in P4us.
  apply supported_timespecs_cases in Hp. unfold format_time in Ht.
  destruct Hp as [-> | [-> | [-> | [-> | [-> | ->]]]]];
    cbn [String.eqb Ascii.eqb Bool.eqb without all_chars negb andb] in Ht.
  - destruct (N.eqb_spec (microsecond now) 0) as [Hz | Hz];
      apply (inj inr) in Ht as <-;
      unfold format_date, hhmmss, hhmm, hh; rewrite ?append_assoc, ?lit_app.
    + rewrite (isoparse_fmt _ _ _ _ _ Hy' Hm' Hd' P3 (H24 _ _ _)) by ascii_text.
      cbn -[make_datetime]. by rewrite Hz.
    + by rewrite (isoparse_fmt _ _ _ _ _ Hy' Hm' Hd' P4us (H24 _ _ _)) by ascii_text.
  - apply (inj inr) in Ht as <-. unfold format_date, hh.
    rewrite ?append_assoc, ?lit_app.
    by rewrite (isoparse_fmt _ _ _ _ _ Hy' Hm' Hd' P1 (H24 _ _ _)) by ascii_text.
  - apply (inj inr) in Ht as <-. unfold format_date, hhmm, hh.
    rewrite ?append_assoc, ?lit_app.
    by rewrite (isoparse_fmt _ _ _ _ _ Hy' Hm' Hd' P2 (H24 _ _ _)) by ascii_text.
  - apply (inj inr) in Ht as <-. unfold format_date, hhmmss, hhmm, hh.
    rewrite ?append_assoc, ?lit_app.
    by rewrite (isoparse_fmt _ _ _ _ _ Hy' Hm' Hd' P3 (H24 _ _ _)) by ascii_text.
  - apply (inj inr) in Ht as <-. unfold format_date, hhmmss, hhmm, hh.
    rewrite ?append_assoc, ?lit_app.
    by rewrite (isoparse_fmt _ _ _ _ _ Hy' Hm' Hd' P4ms (H24 _ _ _)) by ascii_text.
  - apply (inj inr) in Ht as <-. unfold format_date, hhmmss, hhmm, hh.
    rewrite ?append_assoc, ?lit_app.
    by rewrite (isoparse_fmt _ _ _ _ _ Hy' Hm' Hd' P4us (H24 _ _ _)) by ascii_text.
Qed.

Local Transparent fmt_digits.

End OffsetTail.

Lemma span_digits_fmt_offset (w : nat) (n : N) :
  span_digits (fmt_digits w n ++ "+00:00") = (fmt_digits w n, "+00:00").
Proof.
  induction w as [| w IH]; [done |].
  cbn [fmt_digits]. rewrite append_cons. cbn [span_digits].
  by rewrite digit_val_digit_char, IH.
Qed.

(** X11: What [timestamp_utc_iso] replaces does not change how the text
    decodes: for every valid clock reading and listed precision, the text
    [isoformat] writes, with [+00:00], and the text returned, with [Z],
    decode to the same instant, the reading in UTC cut down to the
    precision. *)
Theorem offset_and_designator_decode_alike (now : datetime) (p : string) :
  valid_datetime now = true ->
  p ∈ supported_timespecs ->
  exists with_offset with_z,
    isoformat (replace_tzinfo now (Some utc)) p = inr with_offset /\
    timestamp_utc_iso (Some p) now = inr with_z /\
    with_z = str_replace "+00:00" "Z" None with_offset /\
    datetime_from_iso isoparse with_offset
      = inr (truncate_to p (replace_tzinfo now (Some utc))) /\
    datetime_from_iso isoparse with_z = datetime_from_iso isoparse with_offset.
Proof.
  intros Hv Hp.
  destruct (isoformat_body now p Hp) as (t & Ht & Hplus & Hblank).
  assert (Hkeep : forall tail, without " " tail = true ->
            datetime_from_iso isoparse (format_date now ++ "T" ++ t ++ tail)
              = isoparse (format_date now ++ "T" ++ t ++ tail)).
  { intros tail Htail. unfold datetime_from_iso, str_replace.
    rewrite replace_absent; [done |].
    by rewrite <- !append_assoc, without_app, append_assoc, Hblank. }
  exists (format_date now ++ "T" ++ t ++ "+00:00"), (format_date now ++ "T" ++ t ++ "Z").
  assert (Hiso : isoformat (replace_tzinfo now (Some utc)) p
                 = inr (format_date now ++ "T" ++ t ++ "+00:00")).
  { unfold isoformat.
    change (format_time (replace_tzinfo now (Some utc)) p) with (format_time now p).
    by rewrite Ht. }
  split; [exact Hiso |].
  split; [by apply timestamp_utc_iso_eq |].
  split.
  { rewrite <- !append_assoc, replace_offset by (by rewrite append_assoc).
    by rewrite !append_assoc. }
  rewrite !Hkeep by done.
  rewrite (isoparse_isoformat_tail "+00:00" (Some utc) ltac:(reflexivity)
             span_digits_fmt_offset ltac:(reflexivity) now p t Hv Hp Ht).
  split; [done |].
  by apply isoparse_isoformat.
Qed.

Lemma offset_and_designator_decode_alike_witness :
  let now :=
    {| year := 2020; month := 3; day := 7; hour := 9; minute := 5; second := 42;
       microsecond := 1234; tzinfo := None |} in
  valid_datetime now = true /\ "seconds" ∈ supported_timespecs /\
  exists with_offset with_z,
    isoformat (replace_tzinfo now (Some utc)) "seconds" = inr with_offset /\
    timestamp_utc_iso (Some "seconds") now = inr with_z /\
    with_z = str_replace "+00:00" "Z" None with_offset /\
    datetime_from_iso isoparse with_offset
      = inr (truncate_to "seconds" (replace_tzinfo now (Some utc))) /\
    datetime_from_iso isoparse with_z = datetime_from_iso isoparse with_offset.
Proof.
  intros now.
  assert (Hp : "seconds" ∈ supported_timespecs).
  { unfold supported_timespecs. rewrite !elem_of_cons. tauto. }
  split; [reflexivity |]. split; [exact Hp |].
  exact (offset_and_designator_decode_alike now "seconds" eq_refl Hp).
Defined.

(** ** Decoding any text

    What [datetime_from_iso] returns is decided by what the parser makes
    of the text.  The lemmas below read the parser backwards: from a
    result to the text that gave it. *)

Lemma take_drop (n : nat) (s : string) : str_take n s ++ str_drop n s = s.
Proof.
  revert s. induction n as [| n IH]; intros [| c s]; try reflexivity.
  cbn [str_take str_drop]. rewrite append_cons. by rewrite IH.
Qed.

Lemma all_chars_impl (p q : ascii -> bool) (s : string) :
  (forall c, p c = true -> q c = true) ->
  all_chars p s = true -> all_chars q s = true.
Proof.
  intros Hpq. induction s as [| c s IH]; [done |].
  cbn [all_chars]. intros [Hc Hs]%andb_prop. by rewrite (Hpq c Hc), IH.
Qed.

Lemma digits_acc_digits (s : string) : forall acc n,
  digits_acc acc s = Some n -> all_chars is_digit s = true.
Proof.
  induction s as [| c s IH]; intros acc n; [done |].
  cbn [digits_acc all_chars]. unfold is_digit at 1.
  destruct (digit_val c); [| done]. intros H. by rewrite (IH _ _ H).
Qed.

Lemma int_of_digits_digits (s : string) (n : N) :
  int_of_digits s = inr n -> all_chars is_digit s = true.
Proof.
  unfold int_of_digits. destruct s as [| c s]; [done |].
  destruct (digits_acc 0 (String c s)) as [k |] eqn:E; [| done].
  intros _. by eapply digits_acc_digits.
Qed.

Lemma int_of_digits_error (s : string) (e : exn) :
  int_of_digits s = inl e -> exists m, e = ValueError m.
Proof.
  unfold int_of_digits. destruct s as [| c s]; [intros [= <-]; eauto |].
  destruct (digits_acc 0 (String c s)); [done | intros [= <-]; eauto].
Qed.

Lemma span_digits_spec (s : string) : forall ds rest,
  span_digits s = (ds, rest) -> s = ds ++ rest /\ all_chars is_digit ds = true.
Proof.
  induction s as [| c s IH]; intros ds rest; cbn [span_digits].
  - by intros [= <- <-].
  - destruct (digit_val c) eqn:Ec.
    + destruct (span_digits s) as [ds' rest'].
      intros [= <- <-]. destruct (IH _ _ eq_refl) as [-> Hd].
      split; [done |]. cbn [all_chars]. unfold is_digit at 1. by rewrite Ec, Hd.
    + by intros [= <- <-].
Qed.

Lemma match_fraction_spec (s ds rest : string) :
  match_fraction s = Some (ds, rest) ->
  exists c, s = String c (ds ++ rest) /\ body_char c = true /\
            all_chars is_digit ds = true.
Proof.
  unfold match_fraction. destruct s as [| c s]; [done |].
  destruct (Ascii.eqb c "." || Ascii.eqb c ",") eqn:Ec; [| done].
  destruct (span_digits s) as [ds' rest'] eqn:Es.
  destruct ds' as [| d ds']; [done |]. intros [= <- <-].
  destruct (span_digits_spec _ _ _ Es) as [-> Hd].
  exists c. split; [done |]. split; [| done].
  unfold body_char. apply orb_prop in Ec as [-> | ->]; by rewrite ?orb_true_r.
Qed.

Lemma is_digit_time_char c : is_digit c = true -> time_char c = true.
Proof. unfold time_char, int_char. by intros ->. Qed.

Lemma head_is_inv (a : ascii) (s : string) :
  head_is a s = true -> s = String a (str_drop 1 s).
Proof.
  destruct s as [| c s]; [done |]. cbn [head_is str_drop].
  by intros ->%Ascii.eqb_eq.
Qed.

Lemma str_drop_drop (m n : nat) (s : string) :
  str_drop n (str_drop m s) = str_drop (m + n) s.
Proof.
  revert s. induction m as [| m IH]; intros s; [done |].
  destruct s as [| c s]; [by destruct n |]. cbn [str_drop Nat.add]. apply IH.
Qed.

Lemma length_drop (n : nat) (s : string) :
  String.length (str_drop n s) = (String.length s - n)%nat.
Proof.
  revert s. induction n as [| n IH]; intros [| c s]; cbn [str_drop String.length];
    try lia. apply IH.
Qed.

Lemma length_take (n : nat) (s : string) :
  String.length (str_take n s) = Nat.min n (String.length s).
Proof.
  revert s. induction n as [| n IH]; intros [| c s]; cbn [str_take String.length];
    try lia. by rewrite IH.
Qed.

(** What [parse_tzstr] accepts is made of a sign, digits and a colon, or
    is the designator. *)
Lemma parse_tzstr_chars (z : string) (tz : timezone) :
  parse_tzstr z = inr tz -> all_chars time_char z = true.
Proof.
  unfold parse_tzstr.
  destruct (String.eqb z "Z" || String.eqb z "z") eqn:EZ.
  { intros _. apply orb_prop in EZ as [->%String.eqb_eq | ->%String.eqb_eq]; reflexivity. }
  destruct (negb _) eqn:Elen; [done |].
  destruct (negb (head_is "-" z || head_is "+" z)) eqn:Esign; [done |].
  apply negb_false_iff in Esign.
  assert (Hhead : exists a, z = String a (str_drop 1 z) /\ time_char a = true).
  { apply orb_prop in Esign as [H | H]; apply head_is_inv in H; eauto. }
  destruct Hhead as (a & Hz & Ha).
  destruct (int_of_digits (str_take 2 (str_drop 1 z))) as [| hours] eqn:Eh; [done |].
  cbn [bind_result].
  apply int_of_digits_digits in Eh.
  destruct (String.length z =? 3)%nat eqn:E3.
  - intros _. rewrite Hz. cbn [all_chars]. rewrite Ha. cbn [andb].
    rewrite <- (take_drop 2 (str_drop 1 z)), all_chars_app.
    rewrite (all_chars_impl _ _ _ is_digit_time_char Eh). cbn [andb].
    assert (Hl : String.length (str_drop 2 (str_drop 1 z)) = 0%nat).
    { rewrite !length_drop. apply Nat.eqb_eq in E3. lia. }
    by destruct (str_drop 2 (str_drop 1 z)).
  - destruct (int_of_digits _) as [| minutes] eqn:Em in |- *; [done |].
    intros _. apply int_of_digits_digits in Em.
    rewrite Hz. cbn [all_chars]. rewrite Ha. cbn [andb].
    rewrite <- (take_drop 2 (str_drop 1 z)), all_chars_app.
    rewrite (all_chars_impl _ _ _ is_digit_time_char Eh). cbn [andb].
    rewrite str_drop_drop. cbn [Nat.add].
    destruct (head_is ":" (str_drop 3 z)) eqn:Ec.
    + apply head_is_inv in Ec. rewrite Ec. cbn [all_chars].
      rewrite str_drop_drop. cbn [Nat.add andb time_char].
      change (time_char ":") with true. cbn [andb].
      by apply (all_chars_impl _ _ _ is_digit_time_char).
    + by apply (all_chars_impl _ _ _ is_digit_time_char).
Qed.

Lemma parse_tzstr_error (z : string) (e : exn) :
  parse_tzstr z = inl e -> exists m, e = ValueError m.
Proof.
  unfold parse_tzstr, bind_result.
  repeat match goal with
         | |- context [if ?b then _ else _] => destruct b
         | |- context [match int_of_digits ?x with _ => _ end] =>
             let E := fresh "E" in
             destruct (int_of_digits x) eqn:E;
             [apply int_of_digits_error in E as [? ->] |]
         end; intros [= <-] || done; eauto.
Qed.

Lemma is_digit_body_char c : is_digit c = true -> body_char c = true.
Proof. unfold body_char. by intros ->. Qed.

Lemma c_tz_set_component k v c : c_tz (set_component k v c) = c_tz c.
Proof. by destruct k as [| [| [| k]]]. Qed.

(** What the loop of [_parse_isotime] consumes: digits, colons and a
    fraction mark, then nothing more or an offset that runs to the end. *)
Lemma isotime_loop_inv (fuel : nat) : forall comp has_sep c s c' rest,
  isotime_loop fuel comp has_sep c s = inr (c', rest) ->
  exists body z, s = body ++ z ++ rest /\ all_chars body_char body = true /\
    ((z = "" /\ c_tz c' = c_tz c) \/
     (rest = "" /\ at_tz_boundary z = true /\ all_chars time_char z = true /\
      is_Some (c_tz c'))).
Proof.
  induction fuel as [| fuel IH]; intros comp has_sep c s c' rest.
  { destruct s; intros [= <- <-]; exists "", ""; by eauto. }
  destruct s as [| a s].
  { intros [= <- <-]; exists "", ""; by eauto. }
  rewrite isotime_loop_step by done.
  destruct (at_tz_boundary (String a s)) eqn:Eb.
  { destruct (parse_tzstr (String a s)) as [| tz] eqn:Etz; [done |].
    intros [= <- <-]. exists "", (String a s).
    split; [by rewrite append_empty_r |]. split; [done |]. right.
    repeat split; [done | by eapply parse_tzstr_chars | by eexists]. }
  cbv zeta.
  destruct ((comp =? 2)%nat && has_sep && negb (head_is ":" (String a s))) eqn:Einc;
    [done |].
  set (has_sep' := if (comp =? 1)%nat && head_is ":" (String a s) then true else has_sep).
  assert (Hs1 : exists pre,
             String a s = pre ++
               (if ((comp =? 1)%nat && head_is ":" (String a s)) || ((comp =? 2)%nat && has_sep)
                then str_drop 1 (String a s) else String a s) /\
             all_chars body_char pre = true).
  { destruct (((comp =? 1)%nat && head_is ":" (String a s)) || ((comp =? 2)%nat && has_sep))
      eqn:Edrop; [| by exists ""].
    assert (Hcolon : head_is ":" (String a s) = true).
    { destruct (comp =? 1)%nat, (comp =? 2)%nat, has_sep, (head_is ":" (String a s));
        done. }
    cbn [head_is] in Hcolon. apply Ascii.eqb_eq in Hcolon as ->.
    by exists ":". }
  destruct Hs1 as (pre & Hpre & Hprec).
  set (s1 := if ((comp =? 1)%nat && head_is ":" (String a s)) || ((comp =? 2)%nat && has_sep)
             then str_drop 1 (String a s) else String a s) in *.
  clearbody s1 has_sep'. rewrite Hpre. clear Hpre Einc Eb.
  assert (Hrec : forall c0 s2 pre2,
            s1 = pre2 ++ s2 -> all_chars body_char pre2 = true -> c_tz c0 = c_tz c ->
            isotime_loop fuel (S comp) has_sep' c0 s2 = inr (c', rest) ->
            exists body z, pre ++ s1 = body ++ z ++ rest /\
              all_chars body_char body = true /\
              ((z = "" /\ c_tz c' = c_tz c) \/
               (rest = "" /\ at_tz_boundary z = true /\ all_chars time_char z = true /\
                is_Some (c_tz c')))).
  { intros c0 s2 pre2 -> Hp2 Hc0 H.
    destruct (IH _ _ _ _ _ _ H) as (body & z & -> & Hbody & Hz).
    exists (pre ++ pre2 ++ body), z.
    split; [by rewrite !append_assoc |].
    split; [by rewrite !all_chars_app, Hprec, Hp2, Hbody |].
    by rewrite <- Hc0. }
  destruct (comp <? 3)%nat.
  { destruct (int_of_digits (str_take 2 s1)) as [| v] eqn:Ev; [done |].
    cbn [bind_result]. apply int_of_digits_digits in Ev.
    apply (Hrec _ _ (str_take 2 s1)).
    - by rewrite take_drop.
    - by apply (all_chars_impl _ _ _ is_digit_body_char).
    - apply c_tz_set_component. }
  destruct (comp =? 3)%nat; [| by apply (Hrec _ _ "")].
  destruct (match_fraction s1) as [[ds rest0] |] eqn:Ef; [| by apply (Hrec _ _ "")].
  cbv zeta.
  destruct (int_of_digits (str_take 6 ds)) as [| v] eqn:Ev; [done |].
  cbn [bind_result].
  apply match_fraction_spec in Ef as (c1 & Hs1 & Hc1 & Hds).
  apply (Hrec _ _ (String c1 ds)).
  - by rewrite Hs1.
  - cbn [all_chars]. rewrite Hc1. cbn [andb].
    by apply (all_chars_impl _ _ _ is_digit_body_char).
  - apply c_tz_set_component.
Qed.

Lemma isotime_loop_error (fuel : nat) : forall comp has_sep c s e,
  isotime_loop fuel comp has_sep c s = inl e -> exists m, e = ValueError m.
Proof.
  induction fuel as [| fuel IH]; intros comp has_sep c s e.
  { by destruct s. }
  destruct s as [| a s]; [done |].
  rewrite isotime_loop_step by done. cbv zeta. unfold bind_result.
  repeat match goal with
         | |- context [if ?b then _ else _] => destruct b
         | |- context [match int_of_digits ?x with _ => _ end] =>
             let E := fresh "E" in
             destruct (int_of_digits x) eqn:E;
             [apply int_of_digits_error in E as [? ->] |]
         | |- context [match parse_tzstr ?x with _ => _ end] =>
             let E := fresh "E" in
             destruct (parse_tzstr x) eqn:E;
             [apply parse_tzstr_error in E as [? ->] |]
         | |- context [match match_fraction ?x with _ => _ end] =>
             destruct (match_fraction x) as [[? ?] |]
         end;
    try (intros [= <-]; eauto); try done; try apply IH.
Qed.

Lemma body_char_time_char c : body_char c = true -> time_char c = true.
Proof.
  unfold body_char, time_char, int_char.
  destruct (is_digit c), (Ascii.eqb c ":"), (Ascii.eqb c "."), (Ascii.eqb c ",");
    cbn; rewrite ?orb_true_r; done.
Qed.

Lemma body_char_not_zone c : body_char c = true -> negb (zone_char c) = true.
Proof.
  unfold body_char, zone_char, is_digit, digit_val.
  destruct (Ascii.eqb_spec c "-") as [-> | _]; [done |].
  destruct (Ascii.eqb_spec c "+") as [-> | _]; [done |].
  destruct (Ascii.eqb_spec c "Z") as [-> | _]; [done |].
  destruct (Ascii.eqb_spec c "z") as [-> | _]; done.
Qed.

Lemma at_tz_boundary_zone (z : string) :
  at_tz_boundary z = true -> all_chars (fun c => negb (zone_char c)) z = false.
Proof.
  destruct z as [| a z]; [done |]. unfold at_tz_boundary. cbn [head_is all_chars].
  unfold zone_char. by intros ->.
Qed.

(** The time text that [_parse_isotime] accepts, and whether it set a zone. *)
Lemma parse_isotime_inv (timestr : string) (c : components) :
  parse_isotime timestr = inr c ->
  all_chars time_char timestr = true /\
  (is_Some (c_tz c) <-> all_chars (fun c => negb (zone_char c)) timestr = false).
Proof.
  unfold parse_isotime.
  destruct (String.length timestr <? 2)%nat; [done |].
  destruct (isotime_loop _ _ _ _ _) as [| [c' rest]] eqn:El; [done |].
  cbn [bind_result]. destruct rest; [| done].
  destruct (_ && _); [done |]. intros [= <-].
  apply isotime_loop_inv in El as (body & z & -> & Hbody & Hz).
  rewrite append_empty_r, !all_chars_app.
  rewrite (all_chars_impl _ _ _ body_char_time_char Hbody).
  rewrite (all_chars_impl _ _ _ body_char_not_zone Hbody). cbn [andb].
  destruct Hz as [[-> Hc] | (_ & Hb & Hz & Hc)].
  - split; [done |]. rewrite Hc. cbn. split; [by intros [? [=]] | done].
  - split; [done |]. by rewrite (at_tz_boundary_zone _ Hb).
Qed.

Lemma parse_isotime_error (timestr : string) (e : exn) :
  parse_isotime timestr = inl e -> exists m, e = ValueError m.
Proof.
  unfold parse_isotime.
  destruct (String.length timestr <? 2)%nat; [intros [= <-]; eauto |].
  destruct (isotime_loop _ _ _ _ _) as [| [c' rest]] eqn:El.
  - intros [= <-]. by eapply isotime_loop_error.
  - cbn [bind_result]. destruct rest; [| intros [= <-]; eauto].
    destruct (_ && _); [intros [= <-]; eauto | done].
Qed.

Lemma is_digit_date_char c : is_digit c = true -> date_char c = true.
Proof. unfold date_char, int_char. by intros ->. Qed.

Lemma str_take_add (m n : nat) (s : string) :
  str_take (m + n) s = str_take m s ++ str_take n (str_drop m s).
Proof.
  revert s. induction m as [| m IH]; intros s; [done |].
  destruct s as [| c s]; [by destruct n |].
  cbn [Nat.add str_take str_drop]. by rewrite append_cons, IH.
Qed.

Lemma str_take_cons (n : nat) (c : ascii) (s : string) :
  str_take (S n) (String c s) = String c (str_take n s).
Proof. reflexivity. Qed.

Lemma drop_empty_length (n : nat) (s : string) :
  str_drop n s = "" -> (String.length s <= n)%nat.
Proof.
  intros H. pose proof (length_drop n s) as Hl. rewrite H in Hl. cbn in Hl. lia.
Qed.

Lemma drop_nonempty_length (n : nat) (s : string) :
  str_drop n s <> "" -> (n < String.length s)%nat.
Proof.
  intros H. pose proof (length_drop n s) as Hl.
  destruct (str_drop n s); [done |]. cbn in Hl. lia.
Qed.

(** The date forms [_parse_isodate_common] accepts, and where it stops. *)
Lemma parse_isodate_common_inv (t : string) (y m d : N) (rest : string) :
  parse_isodate_common t = inr (y, m, d, rest) ->
  rest = str_drop (date_length t) t /\
  (date_length t <= String.length t)%nat /\
  all_chars date_char (str_take (date_length t) t) = true /\
  date_length t ∈ [4; 7; 8; 10]%nat.
Proof.
  unfold parse_isodate_common, date_length.
  destruct (String.length t <? 4)%nat eqn:E4; [done |].
  apply Nat.ltb_ge in E4.
  destruct (int_of_digits (str_take 4 t)) as [| y'] eqn:Ey; [done |].
  cbn [bind_result]. cbv zeta.
  apply int_of_digits_digits, (all_chars_impl _ _ _ is_digit_date_char) in Ey.
  destruct (str_drop 4 t) as [| c4 t5] eqn:Es4.
  { intros [= <- <- <- <-]. cbn [head_is].
    pose proof (drop_empty_length _ _ Es4) as Hle.
    assert ((String.length t <=? 4)%nat = true) as -> by (apply Nat.leb_le; lia).
    rewrite Es4. repeat split; [lia | done | set_solver]. }
  assert (Hlen : (4 < String.length t)%nat) by (apply drop_nonempty_length; by rewrite Es4).
  rewrite <- Es4.
  destruct (head_is "-" (str_drop 4 t)) eqn:Esep.
  - rewrite str_drop_drop. cbn [Nat.add].
    destruct (String.length (str_drop 5 t) <? 2)%nat eqn:E7; [done |].
    apply Nat.ltb_ge in E7. rewrite length_drop in E7.
    destruct (int_of_digits (str_take 2 (str_drop 5 t))) as [| m'] eqn:Em; [done |].
    cbn [bind_result].
    apply int_of_digits_digits, (all_chars_impl _ _ _ is_digit_date_char) in Em.
    rewrite str_drop_drop. cbn [Nat.add].
    assert (H7 : all_chars date_char (str_take 7 t) = true).
    { change 7%nat with (4 + 3)%nat. rewrite str_take_add, all_chars_app, Ey.
      rewrite (head_is_inv _ _ Esep), str_take_cons, all_chars_cons.
      rewrite str_drop_drop. cbn [Nat.add]. by rewrite Em. }
    destruct (str_drop 7 t) as [| c7 t8] eqn:Es7.
    { intros [= <- <- <- <-]. cbn [head_is].
      rewrite Es7. repeat split; [lia | done | set_solver]. }
    rewrite <- Es7. cbn [andb].
    destruct (head_is "-" (str_drop 7 t)) eqn:Esep2; [| done]. cbn [negb].
    rewrite str_drop_drop. cbn [Nat.add].
    destruct (String.length (str_drop 8 t) <? 2)%nat eqn:E10; [done |].
    apply Nat.ltb_ge in E10. rewrite length_drop in E10.
    destruct (int_of_digits (str_take 2 (str_drop 8 t))) as [| d'] eqn:Ed; [done |].
    cbn [bind_result]. rewrite str_drop_drop. cbn [Nat.add].
    remember (str_drop 10 t) as r eqn:Hr. intros [= <- <- <- <-].
    apply int_of_digits_digits, (all_chars_impl _ _ _ is_digit_date_char) in Ed.
    repeat split; [lia | | set_solver].
    change 10%nat with (7 + 3)%nat. rewrite str_take_add, all_chars_app, H7.
    rewrite (head_is_inv _ _ Esep2), str_take_cons, all_chars_cons.
    rewrite str_drop_drop. cbn [Nat.add]. by rewrite Ed.
  - destruct (String.length (str_drop 4 t) <? 2)%nat eqn:E6; [done |].
    apply Nat.ltb_ge in E6. rewrite length_drop in E6.
    destruct (int_of_digits (str_take 2 (str_drop 4 t))) as [| m'] eqn:Em; [done |].
    cbn [bind_result].
    apply int_of_digits_digits, (all_chars_impl _ _ _ is_digit_date_char) in Em.
    rewrite str_drop_drop. cbn [Nat.add].
    destruct (str_drop 6 t) as [| c6 t7] eqn:Es6; [done |].
    rewrite <- Es6. cbn [andb].
    assert (Hl6 : (6 < String.length t)%nat) by (apply drop_nonempty_length; by rewrite Es6).
    destruct (String.length (str_drop 6 t) <? 2)%nat eqn:E8; [done |].
    apply Nat.ltb_ge in E8. rewrite length_drop in E8.
    destruct (int_of_digits (str_take 2 (str_drop 6 t))) as [| d'] eqn:Ed; [done |].
    cbn [bind_result]. rewrite str_drop_drop. cbn [Nat.add].
    assert ((String.length t <=? 4)%nat = false) as -> by (apply Nat.leb_gt; lia).
    remember (str_drop 8 t) as r eqn:Hr. intros [= <- <- <- <-].
    apply int_of_digits_digits, (all_chars_impl _ _ _ is_digit_date_char) in Ed.
    repeat split; [lia | | set_solver].
    change 8%nat with (4 + (2 + 2))%nat.
    rewrite !str_take_add, !all_chars_app, Ey, Em, str_drop_drop. cbn [Nat.add andb].
    exact Ed.
Qed.

Lemma parse_isodate_common_error (t : string) (e : exn) :
  parse_isodate_common t = inl e -> exists m, e = ValueError m.
Proof.
  unfold parse_isodate_common, bind_result. cbv zeta.
  repeat match goal with
         | |- context [if ?b then _ else _] => destruct b
         | |- context [match int_of_digits ?x with _ => _ end] =>
             let E := fresh "E" in
             destruct (int_of_digits x) eqn:E;
             [apply int_of_digits_error in E as [? ->] |]
         | |- context [match str_drop ?n ?x with _ => _ end] =>
             destruct (str_drop n x)
         end;
    try (intros [= <-]; eauto); done.
Qed.

Lemma make_datetime_inv (y m d hh mm ss us : N) (tz : option timezone) (dt : datetime) :
  make_datetime y m d hh mm ss us tz = inr dt ->
  valid_datetime dt = true /\ tzinfo dt = tz.
Proof.
  unfold make_datetime. destruct (valid_datetime _) eqn:Hv; [| done].
  by intros [= <-].
Qed.

Lemma make_datetime_error (y m d hh mm ss us : N) (tz : option timezone) (e : exn) :
  make_datetime y m d hh mm ss us tz = inl e -> exists msg, e = ValueError msg.
Proof.
  unfold make_datetime. destruct (valid_datetime _); [done |]. intros [= <-]. eauto.
Qed.

Lemma days_in_month_ge (y m : N) : 28 <= days_in_month y m.
Proof.
  unfold days_in_month.
  repeat match goal with |- context [if ?b then _ else _] => destruct b end; lia.
Qed.

Lemma add_one_day_inv (dt dt' : datetime) :
  valid_datetime dt = true -> add_one_day dt = inr dt' ->
  valid_datetime dt' = true /\ tzinfo dt' = tzinfo dt.
Proof.
  rewrite !valid_datetime_spec. intros (Hy & Hm & Hd & Hh & Hmi & Hs & Hus).
  unfold add_one_day.
  destruct (N.ltb_spec (day dt) (days_in_month (year dt) (month dt))).
  { intros [= <-]. cbn. repeat split; lia. }
  destruct (N.ltb_spec (month dt) 12).
  { intros [= <-]. cbn. pose proof (days_in_month_ge (year dt) (month dt + 1)).
    repeat split; lia. }
  destruct (N.ltb_spec (year dt) 9999); [| done].
  intros [= <-]. cbn. pose proof (days_in_month_ge (year dt + 1) 1).
  repeat split; lia.
Qed.

Lemma add_one_day_error (dt : datetime) (e : exn) :
  add_one_day dt = inl e -> e = OverflowError "date value out of range".
Proof.
  unfold add_one_day. repeat destruct (_ <? _); by intros [= <-].
Qed.

Lemma str_drop_S (n : nat) (s : string) : str_drop (S n) s = str_drop 1 (str_drop n s).
Proof. rewrite str_drop_drop. f_equal. lia. Qed.

Lemma iso_shaped_intro (t : string) :
  (date_length t <= String.length t)%nat ->
  all_chars date_char (str_take (date_length t) t) = true ->
  date_length t ∈ [4; 7; 8; 10]%nat ->
  all_chars time_char (time_text t) = true ->
  iso_shaped t = true.
Proof.
  intros Hl Hd Hn Ht. unfold iso_shaped. apply existsb_exists.
  exists (date_length t). split; [by apply list_elem_of_In |].
  unfold time_text in Ht. rewrite Hd, Ht, !andb_true_r. by apply Nat.leb_le.
Qed.

(** What the parser tells about a text it read to the end: the fields are
    in range, the zone is there exactly when the time text has a
    designator or a sign, and the text has the outline of a date and a
    time. *)
Lemma isoparse_parsed (t : string) :
  match parse_isodate_common t with
  | inl e => isoparse_bytes t = inl e /\ exists m, e = ValueError m
  | inr (y, m, d, rest) =>
      match rest with
      | "" => isoparse_bytes t = make_datetime y m d 0 0 0 0 None /\
              carries_zone t = false /\ iso_shaped t = true
      | String _ timestr =>
          match parse_isotime timestr with
          | inl e => isoparse_bytes t = inl e /\ exists m, e = ValueError m
          | inr c =>
              isoparse_bytes t =
                (if c_hour c =? 24
                 then bind_result
                        (make_datetime y m d 0 (c_minute c) (c_second c) (c_us c) (c_tz c))
                        add_one_day
                 else make_datetime y m d (c_hour c) (c_minute c) (c_second c)
                        (c_us c) (c_tz c)) /\
              (is_Some (c_tz c) <-> carries_zone t = true) /\
              iso_shaped t = true
          end
      end
  end.
Proof.
  unfold isoparse_bytes.
  destruct (parse_isodate_common t) as [e | [[[y m] d] rest]] eqn:Ed.
  { split; [done |]. by eapply parse_isodate_common_error. }
  cbn [bind_result]. apply parse_isodate_common_inv in Ed as (Hrest & Hl & Hdate & Hn).
  assert (Htt : time_text t = str_drop 1 rest).
  { unfold time_text. by rewrite str_drop_S, <- Hrest. }
  destruct rest as [| sep timestr].
  { split; [done |]. unfold carries_zone. rewrite Htt. split; [done |].
    apply iso_shaped_intro; try done. by rewrite Htt. }
  cbn [str_drop] in Htt.
  destruct (parse_isotime timestr) as [e | c] eqn:Et.
  { split; [done |]. by eapply parse_isotime_error. }
  cbn [bind_result]. apply parse_isotime_inv in Et as (Hchars & Hz).
  split; [done |]. split.
  - unfold carries_zone. rewrite Htt, Hz.
    by rewrite negb_true_iff.
  - apply iso_shaped_intro; try done. by rewrite Htt.
Qed.

Lemma isoparse_bytes_inv (t : string) (dt : datetime) :
  isoparse_bytes t = inr dt ->
  valid_datetime dt = true /\
  (is_Some (tzinfo dt) <-> carries_zone t = true) /\
  iso_shaped t = true.
Proof.
  pose proof (isoparse_parsed t) as H.
  destruct (parse_isodate_common t) as [e | [[[y m] d] rest]].
  { destruct H as [-> _]. done. }
  destruct rest as [| sep timestr].
  { destruct H as (-> & Hz & Hs). intros [Hv Htz]%make_datetime_inv.
    split; [done |]. split; [| done]. rewrite Htz, Hz. split; [by intros [? [=]] | done]. }
  destruct (parse_isotime timestr) as [e | c].
  { destruct H as [-> _]. done. }
  destruct H as (-> & Hz & Hs). rewrite <- Hz.
  destruct (c_hour c =? 24).
  - destruct (make_datetime _ _ _ _ _ _ _ _) as [| dt0] eqn:Em; [done |].
    cbn [bind_result]. apply make_datetime_inv in Em as [Hv0 Htz0].
    intros [Hv Htz]%add_one_day_inv; [| done]. by rewrite Htz, Htz0.
  - intros [Hv Htz]%make_datetime_inv. by rewrite Htz.
Qed.

Lemma isoparse_bytes_error (t : string) (e : exn) :
  isoparse_bytes t = inl e ->
  (exists m, e = ValueError m) \/
  (e = OverflowError "date value out of range" /\ iso_shaped t = true).
Proof.
  pose proof (isoparse_parsed t) as H.
  destruct (parse_isodate_common t) as [e0 | [[[y m] d] rest]].
  { destruct H as [-> He]. intros [= <-]. by left. }
  destruct rest as [| sep timestr].
  { destruct H as (-> & _). intros He%make_datetime_error. by left. }
  destruct (parse_isotime timestr) as [e0 | c].
  { destruct H as [-> He]. intros [= <-]. by left. }
  destruct H as (-> & _ & Hs).
  destruct (c_hour c =? 24); [| intros He%make_datetime_error; by left].
  destruct (make_datetime _ _ _ _ _ _ _ _) as [e0 | dt0] eqn:Em.
  - cbn [bind_result]. intros [= <-]. left. by eapply make_datetime_error.
  - cbn [bind_result]. intros ->%add_one_day_error. by right.
Qed.

(** A text that is not ASCII is refused before it is read. *)
Lemma isoparse_not_ascii (t : string) :
  all_chars is_ascii t = false ->
  isoparse t = inl (ValueError "ISO-8601 strings should contain only ASCII characters").
Proof. intros H. unfold isoparse, takes_ascii. by rewrite H. Qed.

Lemma isoparse_inv (t : string) (dt : datetime) :
  isoparse t = inr dt ->
  valid_datetime dt = true /\
  (is_Some (tzinfo dt) <-> carries_zone t = true) /\
  iso_shaped t = true /\ all_chars is_ascii t = true.
Proof.
  unfold isoparse, takes_ascii. destruct (all_chars is_ascii t); [| done].
  intros (? & ? & ?)%isoparse_bytes_inv. done.
Qed.

Lemma isoparse_error (t : string) (e : exn) :
  isoparse t = inl e ->
  (exists m, e = ValueError m) \/
  (e = OverflowError "date value out of range" /\ iso_shaped t = true).
Proof.
  unfold isoparse, takes_ascii. destruct (all_chars is_ascii t).
  - apply isoparse_bytes_error.
  - intros [= <-]. left. by eexists.
Qed.

Lemma span_digits_fmt_end (w : nat) (n : N) :
  span_digits (fmt_digits w n ++ "") = (fmt_digits w n, "").
Proof.
  induction w as [| w IH]; [done |].
  cbn [fmt_digits]. rewrite append_cons. cbn [span_digits].
  by rewrite digit_val_digit_char, IH.
Qed.

Lemma span_digits_fmt_stop (a : ascii) (rest : string) (w : nat) (n : N) :
  digit_val a = None ->
  span_digits (fmt_digits w n ++ String a rest) = (fmt_digits w n, String a rest).
Proof.
  intros Ha. induction w as [| w IH].
  - cbn [fmt_digits]. change ("" ++ String a rest) with (String a rest).
    cbn [span_digits]. by rewrite Ha.
  - cbn [fmt_digits]. rewrite append_cons. cbn [span_digits].
    by rewrite digit_val_digit_char, IH.
Qed.

(** [_parse_tzstr] reads the offset [_format_offset] writes; a zero
    offset comes back as UTC. *)
Lemma parse_tzstr_format_offset (z : timezone) :
  tz_minutes z < 1440 ->
  parse_tzstr (format_offset (Some z)) = inr (if tz_minutes z =? 0 then utc else z).
Proof.
  intros Hm. destruct z as [neg mins]. cbn [tz_minutes tz_negative] in *.
  unfold format_offset. cbn [tz_minutes tz_negative].
  assert (Hh : mins / 60 < 10 ^ N.of_nat 2) by (change (10 ^ N.of_nat 2) with 100; lia).
  assert (Hr : mins mod 60 < 10 ^ N.of_nat 2) by (change (10 ^ N.of_nat 2) with 100; lia).
  pose proof (int_of_fmt_digits 1 _ Hh) as Eh.
  pose proof (int_of_fmt_digits 1 _ Hr) as Er.
  set (sign := if neg then "-" else "+") in *.
  assert (Hsign : sign = String (if neg then "-"%char else "+"%char) "") by (by destruct neg).
  rewrite Hsign, lit_app. clear Hsign sign.
  unfold parse_tzstr.
  set (a := if neg then "-"%char else "+"%char).
  set (body := fmt_digits 2 (mins / 60) ++ ":" ++ fmt_digits 2 (mins mod 60)).
  assert (HZ : String.eqb (String a body) "Z" || String.eqb (String a body) "z" = false).
  { cbn [String.eqb]. by destruct neg. }
  rewrite HZ.
  assert (Hlen : String.length (String a body) = 6%nat).
  { unfold body. cbn [String.length]. by rewrite !length_app, !length_fmt. }
  rewrite Hlen. cbn [Nat.eqb orb negb].
  assert (Hhead : head_is "-" (String a body) = neg /\ head_is "+" (String a body) = negb neg).
  { cbn [head_is]. by destruct neg. }
  destruct Hhead as [-> ->].
  assert ((neg || negb neg) = true) as -> by (by destruct neg). cbn [negb].
  change (str_drop 1 (String a body)) with body.
  unfold body at 1. rewrite str_take_fmt, Eh. cbn [bind_result].
  assert (Hd3 : str_drop 3 (String a body) = ":" ++ fmt_digits 2 (mins mod 60)).
  { change (str_drop 3 (String a body)) with (str_drop 2 body).
    unfold body. by rewrite str_drop_fmt. }
  rewrite Hd3. change (head_is ":" (":" ++ fmt_digits 2 (mins mod 60))) with true.
  cbv iota.
  change (str_drop 4 (String a body)) with (str_drop 1 (str_drop 3 (String a body))).
  rewrite Hd3. change (str_drop 1 (":" ++ fmt_digits 2 (mins mod 60)))
    with (fmt_digits 2 (mins mod 60)).
  rewrite Er. cbn [bind_result].
  destruct (N.eqb_spec mins 0) as [-> | Hnz]; [done |].
  assert (((mins / 60 =? 0) && (mins mod 60 =? 0)) = false) as ->.
  { apply andb_false_iff.
    destruct (N.eqb_spec (mins / 60) 0), (N.eqb_spec (mins mod 60) 0); auto. lia. }
  assert ((59 <? mins mod 60) = false) as -> by (apply N.ltb_ge; lia).
  assert ((23 <? mins / 60) = false) as -> by (apply N.ltb_ge; lia).
  do 2 f_equal. lia.
Qed.

Lemma without_blank_format_offset (tz : option timezone) :
  without " " (format_offset tz) = true.
Proof.
  destruct tz as [z |]; [| done]. unfold format_offset.
  rewrite !without_app, !without_fmt_digits by done. by destruct (tz_negative z).
Qed.

Lemma format_offset_head (z : timezone) :
  format_offset (Some z) =
    String (if tz_negative z then "-" else "+")%char
      (fmt_digits 2 (tz_minutes z / 60) ++ ":" ++ fmt_digits 2 (tz_minutes z mod 60)).
Proof. unfold format_offset. by destruct (tz_negative z). Qed.

(** The parser reads every text [isoformat] writes, with or without an
    offset. *)
Lemma isoparse_isoformat_any (d : datetime) (p t : string) :
  valid_datetime d = true -> zone_in_range (tzinfo d) ->
  p ∈ supported_timespecs ->
  format_time d p = inr t ->
  isoparse (format_date d ++ "T" ++ t ++ format_offset (tzinfo d))
    = inr (truncate_to p (replace_tzinfo d (zero_as_utc (tzinfo d)))).
Proof.
  intros Hv Hz Hp Ht.
  apply (isoparse_isoformat_tail (format_offset (tzinfo d)) (zero_as_utc (tzinfo d)));
    try done.
  3: { destruct (tzinfo d) as [z |]; [| done]. rewrite format_offset_head.
       destruct (tz_negative z); ascii_text. }
  - intros fuel comp has_sep c. destruct (tzinfo d) as [z |]; [| done].
    cbn [zone_in_range] in Hz.
    rewrite isotime_loop_step by (by rewrite format_offset_head).
    assert (at_tz_boundary (format_offset (Some z)) = true) as ->
      by (rewrite format_offset_head; by destruct (tz_negative z)).
    by rewrite parse_tzstr_format_offset.
  - intros w n. destruct (tzinfo d) as [z |]; [| apply span_digits_fmt_end].
    rewrite format_offset_head.
    apply span_digits_fmt_stop. by destruct (tz_negative z).
Qed.

Lemma isoformat_text_without_blank (d : datetime) (p t tail : string) :
  p ∈ supported_timespecs -> format_time d p = inr t ->
  without " " tail = true ->
  without " " (format_date d) = true /\
  without " " (format_date d ++ "T" ++ t ++ tail) = true.
Proof.
  intros Hp Ht Htail.
  destruct (isoformat_body d p Hp) as (t' & Ht' & _ & Hblank).
  rewrite Ht in Ht'. apply (inj inr) in Ht' as <-.
  destruct (without_isoformat_parts " " d) as (Bd & _); [by right |].
  split; [done |].
  by rewrite <- !append_assoc, without_app, append_assoc, Hblank, Htail.
Qed.




Lemma declared_fields_lookup_witness :
  exists M Sc,
    tagged_build = (inr (M, Sc), 2%nat) /\
    _declared_fields Sc !! "_id" = Some "Int" /\
    _declared_fields Sc !! "_type" = Some "Str".
Proof.
  eexists _, _. split; [reflexivity |].
  split.
  - exact (declared_fields_lookup (Value := option nat) ascii_isidentifier
             demo_base_fields
             "Tagged" "x.TaggedHandler" "proto/1.0/tagged"
             {[ "_id" := "Int"; "comment" := "Str" ]} None "plugin" 0%nat
             _ _ 2%nat "_id" eq_refl).
  - exact (declared_fields_lookup (Value := option nat) ascii_isidentifier
             demo_base_fields
             "Tagged" "x.TaggedHandler" "proto/1.0/tagged"
             {[ "_id" := "Int"; "comment" := "Str" ]} None "plugin" 0%nat
             _ _ 2%nat "_type" eq_refl).
Defined.

Lemma generate_model_schema_from_schema_witness :
  exists M1 S1,
    is_Some (demo_base_fields !! "_type") /\
    note_build = (inr (M1, S1), 2%nat) /\
    exists e,
      demo_build "Memo" "x.MemoHandler" "proto/1.0/memo"
        (ArgObject (Some (_declared_fields S1))) None "plugin" 2%nat
      = (inl e, 2%nat).
Proof.
  assert (Htype : is_Some (demo_base_fields !! "_type")) by (by eexists).
  eexists _, _. split; [exact Htype |]. split; [reflexivity |].
  exact (generate_model_schema_from_schema (Value := option nat) ascii_isidentifier
           demo_base_fields
           "Note" "x.NoteHandler" "proto/1.0/note" {[ "comment" := "Str" ]}
           None "plugin" 0%nat _ _ 2%nat
           "Memo" "x.MemoHandler" "proto/1.0/memo" None "plugin" Htype eq_refl).
Defined.

Lemma generic_init_slot_order_witness :
  NoDup ["comment"; "author"] /\
  ["comment"; "author"] ≡ₚ ["author"; "comment"] /\
  foldl (init_slot None)
    ({| cls := demo_model; attrs := ∅ |},
     ({[ "comment" := Some 5%nat ]} : gmap string (option nat)))
    ["comment"; "author"]
  = foldl (init_slot None)
    ({| cls := demo_model; attrs := ∅ |},
     ({[ "comment" := Some 5%nat ]} : gmap string (option nat)))
    ["author"; "comment"].
Proof.
  assert (Hnd : NoDup ["comment"; "author"]).
  { apply NoDup_cons. split; [| apply NoDup_singleton].
    rewrite elem_of_cons, elem_of_nil. intros [Heq | []]. discriminate Heq. }
  assert (Hperm : ["comment"; "author"] ≡ₚ ["author"; "comment"])
    by apply perm_swap.
  split; [exact Hnd |]. split; [exact Hperm |].
  exact (generic_init_slot_order None ["comment"; "author"] ["author"; "comment"]
           {| cls := demo_model; attrs := ∅ |} {[ "comment" := Some 5%nat ]}
           Hnd Hperm).
Defined.
